(** * Subtitle generation core of subtitle_app.py

    A shallow embedding of the timestamp formatters, the colour converter and
    the SRT / ASS document builders of [src/subtitle_app.py], together with
    the properties the specification states about them.

    Conventions of the embedding.
    - A finite Python [float] is the rational value of a double ([Q]);
      [Float.round] gives the double nearest to a rational and
      [Float.representable] tells the rationals that are doubles.  The one
      float product of the program, the scaling of the fractional part of
      the seconds inside [timedelta], is rounded to double precision as
      CPython does.  The two true divisions of integers, in
      [total_seconds()] and in [td.microseconds / 1000], are the exact
      quotients; the program only reads their integer parts.  An infinity
      and a NaN are the other two cases of [Py.float]; they reach the
      formatters through [format_timestamp_float] and
      [format_timestamp_ass_float].
    - The columns [start] and [end] of a row hold finite floats and the
      column [text] holds a [str].
    - A Python [int] is a [Z]; [//] and [%] with a positive divisor are
      [Z.div] and [Z.modulo]; [int(x)] truncates towards zero.
    - A Python [str] is a [string] whose characters stand for code points
      below 256; [upper()] is given on the ASCII letters.
    - An exception is a [Raise] result, threaded through an error monad. *)

From Stdlib Require Import ZArith QArith List String Ascii Bool Lia Lqa.
From Stdlib Require Import DecimalString DecimalPos.
From Stdlib Require DecimalZ.
Import ListNotations.

Open Scope string_scope.
Open Scope Z_scope.

(** ** Exceptions and the error monad *)

Inductive exn : Type :=
| OverflowError
| ValueError.

Inductive result (A : Type) : Type :=
| Ok (a : A)
| Raise (e : exn).

Arguments Ok {A} a.
Arguments Raise {A} e.

Definition bind {A B : Type} (c : result A) (k : A -> result B) : result B :=
  match c with
  | Ok a => k a
  | Raise e => Raise e
  end.

Notation "x <- c ;; k" := (bind c (fun x => k))
  (at level 61, c at next level, right associativity).

(** [mapM f l] runs [f] over [l] from left to right and stops at the first
    exception. *)
Fixpoint mapM {A B : Type} (f : A -> result B) (l : list A) : result (list B) :=
  match l with
  | [] => Ok []
  | a :: l' => b <- f a ;; bs <- mapM f l' ;; Ok (b :: bs)
  end.

(** ** Python built-ins used by the source *)

Module Py.

(** The line feed character, Python's ['\n']. *)
Definition LF_char : ascii := ascii_of_nat 10.
Definition LF : string := String LF_char "".

(** [str(n)] for an [int]. *)
Definition str (n : Z) : string := NilZero.string_of_int (Z.to_int n).

Fixpoint zeros (k : nat) : string :=
  match k with
  | O => ""
  | S k' => String "0" (zeros k')
  end.

(** Left padding of a digit string with zeros up to width [w]. *)
Definition zero_pad (w : nat) (digits : string) : string :=
  zeros (w - String.length digits) ++ digits.

(** [format(n, '0w')], the f-string field [{n:0w}] for an [int]: sign-aware
    zero padding to a minimal width of [w] characters. *)
Definition format_0 (w : nat) (n : Z) : string :=
  if n <? 0 then String "-" (zero_pad (w - 1) (str (- n)))
  else zero_pad w (str n).

(** [int(x)] for a float: truncation towards zero. *)
Definition int (x : Q) : Z := Z.quot (Qnum x) (Zpos (Qden x)).

(** [a / b] on two ints: true division. *)
Definition truediv (a b : Z) : Q := inject_Z a / inject_Z b.

(** [s.lstrip(c)] for a one-character argument: every leading occurrence
    of [c] is removed. *)
Fixpoint lstrip (c : ascii) (s : string) : string :=
  match s with
  | String a s' => if Ascii.eqb a c then lstrip c s' else s
  | EmptyString => s
  end.

(** [s.replace(old, new)] for a one-character [old]. *)
Fixpoint replace (old : ascii) (new : string) (s : string) : string :=
  match s with
  | EmptyString => ""
  | String a s' =>
      (if Ascii.eqb a old then new else String a "") ++ replace old new s'
  end.

Definition upper_char (a : ascii) : ascii :=
  let n := nat_of_ascii a in
  if ((97 <=? n) && (n <=? 122))%nat then ascii_of_nat (n - 32) else a.

(** [s.upper()]. *)
Fixpoint upper (s : string) : string :=
  match s with
  | EmptyString => ""
  | String a s' => String (upper_char a) (upper s')
  end.

(** The slice [s[i:j]] for [0 <= i <= j]. *)
Definition slice (i j : nat) (s : string) : string := substring i (j - i) s.

(** A [float]: the value of a finite double, an infinity or a NaN. *)
Inductive float : Type :=
| Finite (x : Q)
| Infinity (negative : bool)
| NaN.

End Py.

(** ** Double precision *)

Module Float.

(** Rounding of a rational to the nearest integer, ties to the even one. *)
Definition round_half_even (x : Q) : Z :=
  let n := Qnum x in
  let d := Zpos (Qden x) in
  let q := n / d in
  let r := n mod d in
  match 2 * r ?= d with
  | Lt => q
  | Gt => q + 1
  | Eq => if Z.even q then q else q + 1
  end.

(** The integer part of the binary logarithm of [|x|], for [x <> 0]. *)
Definition ilog2 (x : Q) : Z :=
  let n := Z.abs (Qnum x) in
  let d := Zpos (Qden x) in
  let e := Z.log2 n - Z.log2 d in
  let below := if 0 <=? e then n <? 2 ^ e * d else n * 2 ^ (- e) <? d in
  if below then e - 1 else e.

(** The exponent of the unit in the last place of the doubles next to [x]:
    53 significant bits, and no unit below [2^-1074]. *)
Definition ulp_exponent (x : Q) : Z := Z.max (ilog2 x - 52) (- 1074).

(** The double nearest to [x], ties to the even significand, for [x] below
    [2^1024] in magnitude. *)
Definition round (x : Q) : Q :=
  if Qnum x =? 0 then 0
  else
    let e := ulp_exponent x in
    if 0 <=? e
    then inject_Z (round_half_even (x / inject_Z (2 ^ e)) * 2 ^ e)
    else round_half_even (x * inject_Z (2 ^ (- e))) # Z.to_pos (2 ^ (- e)).

(** Whether [x] is the value of a double. *)
Definition representable (x : Q) : bool := Qeq_bool (round x) x.

(** The product of two doubles. *)
Definition mul (x y : Q) : Q := round (x * y)%Q.

End Float.

(** ** [datetime.timedelta] *)

Module Datetime.

(** A duration, stored normalised as the library does:
    [0 <= seconds < 86400], [0 <= microseconds < 10^6] and
    [-999999999 <= days <= 999999999]. *)
Record timedelta : Type := mk_timedelta {
  days : Z;
  seconds : Z;
  microseconds : Z
}.

Definition us_per_second : Z := 1000000.
Definition us_per_day : Z := 86400 * us_per_second.
Definition max_days : Z := 999999999.

(** Normalisation of a whole number of microseconds; a magnitude of more
    than [max_days] days overflows. *)
Definition of_microseconds (us : Z) : result timedelta :=
  let d := us / us_per_day in
  if (d <? - max_days) || (max_days <? d) then Raise OverflowError
  else Ok {| days := d;
             seconds := (us mod us_per_day) / us_per_second;
             microseconds := us mod us_per_second |}.

(** [timedelta(seconds=s)] for a finite float, as CPython computes it: the
    integer part of [s] is converted exactly; a fractional part other than
    zero is multiplied by [10^6] in double precision, and the sum is rounded
    to a whole number of microseconds, ties to the even one; the result is
    normalised. *)
Definition of_seconds (s : Q) : result timedelta :=
  let intpart := Py.int s in
  let fracpart := (s - inject_Z intpart)%Q in
  let x := intpart * us_per_second in
  if Qnum fracpart =? 0 then of_microseconds x
  else
    let dnum := Float.mul (inject_Z us_per_second) fracpart in
    of_microseconds (Float.round_half_even (inject_Z x + dnum)%Q).

(** [timedelta(seconds=x)] for any float: the conversion of an infinity to
    an integer raises [OverflowError], that of a NaN [ValueError]. *)
Definition of_float (x : Py.float) : result timedelta :=
  match x with
  | Py.Finite s => of_seconds s
  | Py.Infinity _ => Raise OverflowError
  | Py.NaN => Raise ValueError
  end.

Definition to_microseconds (td : timedelta) : Z :=
  (days td * 86400 + seconds td) * us_per_second + microseconds td.

(** [td.total_seconds()]. *)
Definition total_seconds (td : timedelta) : Q :=
  Py.truediv (to_microseconds td) us_per_second.

End Datetime.

(** ** The pandas frame handed to the builders *)

(** One row of the frame: the columns [start], [end] and [text]. *)
Record Row : Type := mk_row {
  start : Q;
  end_ : Q;
  text : string
}.

(** A [DataFrame] as [iterrows()] sees it: the rows in frame order, each
    with its index label. *)
Definition DataFrame : Type := list (Z * Row).

(** The frame [pd.DataFrame(rows)] with the default index [0, 1, 2, ...]. *)
Fixpoint with_range_index (from : Z) (rows : list Row) : DataFrame :=
  match rows with
  | [] => []
  | r :: rows' => (from, r) :: with_range_index (from + 1) rows'
  end.

Definition frame_of_rows (rows : list Row) : DataFrame := with_range_index 0 rows.

(** ** The functions of subtitle_app.py *)

(** [format_timestamp(seconds)]: SRT timestamp [HH:MM:SS,mmm]. *)
Definition format_timestamp (seconds : Q) : result string :=
  td <- Datetime.of_seconds seconds ;;
  let total_seconds := Py.int (Datetime.total_seconds td) in
  let hours := total_seconds / 3600 in
  let minutes := (total_seconds mod 3600) / 60 in
  let secs := total_seconds mod 60 in
  let millis := Py.int (Py.truediv (Datetime.microseconds td) 1000) in
  Ok (Py.format_0 2 hours ++ ":" ++ Py.format_0 2 minutes ++ ":"
      ++ Py.format_0 2 secs ++ "," ++ Py.format_0 3 millis).

(** [format_timestamp_ass(seconds)]: ASS timestamp [H:MM:SS.cc]. *)
Definition format_timestamp_ass (seconds : Q) : result string :=
  td <- Datetime.of_seconds seconds ;;
  let total_seconds := Py.int (Datetime.total_seconds td) in
  let hours := total_seconds / 3600 in
  let minutes := (total_seconds mod 3600) / 60 in
  let secs := total_seconds mod 60 in
  let centis := Py.int (Py.truediv (Datetime.microseconds td) 10000) in
  Ok (Py.str hours ++ ":" ++ Py.format_0 2 minutes ++ ":"
      ++ Py.format_0 2 secs ++ "." ++ Py.format_0 2 centis).

(** The two formatters on any float.  Their first statement is
    [td = timedelta(seconds=seconds)]; what it raises on an infinity or a
    NaN leaves the function. *)
Definition format_timestamp_float (seconds : Py.float) : result string :=
  match seconds with
  | Py.Finite s => format_timestamp s
  | _ => bind (Datetime.of_float seconds) (fun _ => Ok "")
  end.

Definition format_timestamp_ass_float (seconds : Py.float) : result string :=
  match seconds with
  | Py.Finite s => format_timestamp_ass s
  | _ => bind (Datetime.of_float seconds) (fun _ => Ok "")
  end.

(** The body of the loop of [create_srt_content], run over the remaining
    rows with the accumulated [srt_content]. *)
Fixpoint srt_loop (rows : DataFrame) (srt_content : string) : result string :=
  match rows with
  | [] => Ok srt_content
  | (idx, row) :: rows' =>
      start <- format_timestamp (start row) ;;
      end_ <- format_timestamp (end_ row) ;;
      let text := text row in
      srt_loop rows'
        (srt_content ++ Py.str (idx + 1) ++ Py.LF ++ start ++ " --> " ++ end_
           ++ Py.LF ++ text ++ Py.LF ++ Py.LF)
  end.

(** [create_srt_content(df)]. *)
Definition create_srt_content (df : DataFrame) : result string :=
  srt_loop df "".

(** The keyword arguments of [create_ass_content]. *)
Record Style : Type := mk_style {
  font_name : string;
  font_size : Z;
  primary_color : string;
  outline_color : string;
  outline_width : Z;
  shadow_depth : Z;
  alignment : Z;
  margin_v : Z
}.

(** The defaults of the signature of [create_ass_content]. *)
Definition default_style : Style :=
  {| font_name := "MS Gothic"; font_size := 40;
     primary_color := "&H00FFFFFF"; outline_color := "&H00000000";
     outline_width := 2; shadow_depth := 0; alignment := 2; margin_v := 10 |}.

(** The f-string [header] of [create_ass_content]. *)
Definition ass_header (st : Style) : string :=
  "[Script Info]" ++ Py.LF ++
  "Title: Streamlit Auto Subtitles" ++ Py.LF ++
  "ScriptType: v4.00+" ++ Py.LF ++
  "WrapStyle: 0" ++ Py.LF ++
  "ScaledBorderAndShadow: yes" ++ Py.LF ++
  "YCbCr Matrix: None" ++ Py.LF ++
  Py.LF ++
  "[V4+ Styles]" ++ Py.LF ++
  "Format: Name, Fontname, Fontsize, PrimaryColour, SecondaryColour, OutlineColour, BackColour, Bold, Italic, Underline, StrikeOut, ScaleX, ScaleY, Spacing, Angle, BorderStyle, Outline, Shadow, Alignment, MarginL, MarginR, MarginV, Encoding" ++ Py.LF ++
  "Style: Default," ++ font_name st ++ "," ++ Py.str (font_size st) ++ ","
    ++ primary_color st ++ ",&H000000FF," ++ outline_color st
    ++ ",&H00000000,0,0,0,0,100,100,0,0,1," ++ Py.str (outline_width st) ++ ","
    ++ Py.str (shadow_depth st) ++ "," ++ Py.str (alignment st) ++ ",10,10,"
    ++ Py.str (margin_v st) ++ ",1" ++ Py.LF ++
  Py.LF ++
  "[Events]" ++ Py.LF ++
  "Format: Layer, Start, End, Style, Name, MarginL, MarginR, MarginV, Effect, Text" ++ Py.LF.

(** The body of the loop of [create_ass_content]. *)
Fixpoint ass_loop (rows : DataFrame) (events : string) : result string :=
  match rows with
  | [] => Ok events
  | (idx, row) :: rows' =>
      start <- format_timestamp_ass (start row) ;;
      end_ <- format_timestamp_ass (end_ row) ;;
      let text := Py.replace Py.LF_char "\N" (text row) in
      ass_loop rows'
        (events ++ "Dialogue: 0," ++ start ++ "," ++ end_ ++ ",Default,,0,0,0,,"
           ++ text ++ Py.LF)
  end.

(** [create_ass_content(df, font_name=..., ..., margin_v=...)]. *)
Definition create_ass_content (df : DataFrame) (st : Style) : result string :=
  let header := ass_header st in
  events <- ass_loop df "" ;;
  Ok (header ++ events).

(** [hex_to_ass_color(hex_color)]: web colour [#RRGGBB] to ASS colour
    [&HAABBGGRR], alpha [00]. *)
Definition hex_to_ass_color (hex_color : string) : string :=
  let hex_color := Py.lstrip "#" hex_color in
  if negb (String.length hex_color =? 6)%nat then "&H00FFFFFF"
  else
    let r := Py.slice 0 2 hex_color in
    let g := Py.slice 2 4 hex_color in
    let b := Py.slice 4 6 hex_color in
    Py.upper ("&H00" ++ b ++ g ++ r).

(** ** The builders as calls over a store *)

Module Call.

(** What two calls of the builders can share: the frame object they are
    both handed and the variables in which they build their output.  A call
    starts in the store the call before it has left. *)
Record Store : Type := mk_store {
  frame : DataFrame;
  srt_content : string;
  header : string;
  events : string
}.

Definition set_srt_content (v : string) (m : Store) : Store :=
  {| frame := frame m; srt_content := v; header := header m; events := events m |}.

Definition set_header (v : string) (m : Store) : Store :=
  {| frame := frame m; srt_content := srt_content m; header := v; events := events m |}.

Definition set_events (v : string) (m : Store) : Store :=
  {| frame := frame m; srt_content := srt_content m; header := header m; events := v |}.

(** The [for] loop of [create_srt_content] over the rows that [iterrows()]
    yields; an exception leaves the loop, with the store as it is then. *)
Fixpoint srt_for (rows : DataFrame) (m : Store) : option exn * Store :=
  match rows with
  | [] => (None, m)
  | (idx, row) :: rows' =>
      match format_timestamp (start row) with
      | Raise e => (Some e, m)
      | Ok start =>
          match format_timestamp (end_ row) with
          | Raise e => (Some e, m)
          | Ok end_ =>
              let text := text row in
              srt_for rows'
                (set_srt_content
                   (srt_content m ++ Py.str (idx + 1) ++ Py.LF ++ start
                      ++ " --> " ++ end_ ++ Py.LF ++ text ++ Py.LF ++ Py.LF) m)
          end
      end
  end.

(** A call [create_srt_content(df)], [df] being the frame of the store:
    [srt_content = ""], the loop, [return srt_content]. *)
Definition create_srt_content (m : Store) : result string * Store :=
  let m := set_srt_content "" m in
  match srt_for (frame m) m with
  | (Some e, m') => (Raise e, m')
  | (None, m') => (Ok (srt_content m'), m')
  end.

(** The [for] loop of [create_ass_content]. *)
Fixpoint ass_for (rows : DataFrame) (m : Store) : option exn * Store :=
  match rows with
  | [] => (None, m)
  | (idx, row) :: rows' =>
      match format_timestamp_ass (start row) with
      | Raise e => (Some e, m)
      | Ok start =>
          match format_timestamp_ass (end_ row) with
          | Raise e => (Some e, m)
          | Ok end_ =>
              let text := Py.replace Py.LF_char "\N" (text row) in
              ass_for rows'
                (set_events
                   (events m ++ "Dialogue: 0," ++ start ++ "," ++ end_
                      ++ ",Default,,0,0,0,," ++ text ++ Py.LF) m)
          end
      end
  end.

(** A call [create_ass_content(df, ...)] with the keyword arguments [st]:
    [header = f"..."], [events = ""], the loop, [return header + events]. *)
Definition create_ass_content (st : Style) (m : Store) : result string * Store :=
  let m := set_header (ass_header st) m in
  let m := set_events "" m in
  match ass_for (frame m) m with
  | (Some e, m') => (Raise e, m')
  | (None, m') => (Ok (header m' ++ events m'), m')
  end.

End Call.

(** ** Notions of the specification *)

Module Spec.

(** Truncation of a rational towards zero. *)
Definition truncate (x : Q) : Z := Z.quot (Qnum x) (Zpos (Qden x)).

(** The sub-second remainder of [s], in seconds. *)
Definition sub_second (s : Q) : Q := s - inject_Z (truncate s).

(** That remainder truncated to whole milliseconds, to whole hundredths. *)
Definition millis_field (s : Q) : Z := truncate (sub_second s * 1000).
Definition centis_field (s : Q) : Z := truncate (sub_second s * 100).

(** The decimal digit [n], for [0 <= n <= 9]. *)
Definition digit (n : Z) : ascii := ascii_of_nat (48 + Z.to_nat n).

(** A field of exactly two, of exactly three decimal digits. *)
Definition digits2 (n : Z) : string :=
  String (digit (n / 10)) (String (digit (n mod 10)) "").
Definition digits3 (n : Z) : string :=
  String (digit (n / 100)) (digits2 (n mod 100)).

(** The hour field of an SRT timestamp, for [0 <= h]: the decimal numeral
    of [h], with a leading zero when it has a single digit. *)
Definition hours_field (h : Z) : string :=
  if h <? 10 then String "0" (Py.str h) else Py.str h.

(** [HH:MM:SS,mmm] for a whole second count [T] and a millisecond field:
    the hour field has at least two digits and is not reduced modulo 24. *)
Definition srt_timestamp (T ms : Z) : string :=
  hours_field (T / 3600) ++ ":" ++ digits2 (T / 60 mod 60) ++ ":"
    ++ digits2 (T mod 60) ++ "," ++ digits3 ms.

(** [H:MM:SS.cc] for a whole second count [T] and a centisecond field. *)
Definition ass_timestamp (T cs : Z) : string :=
  Py.str (T / 3600) ++ ":" ++ digits2 (T / 60 mod 60) ++ ":"
    ++ digits2 (T mod 60) ++ "." ++ digits2 cs.

(** The timestamps the specification words describe: every field taken
    from the input itself by truncation. *)
Definition srt_by_truncation (s : Q) : string :=
  srt_timestamp (truncate s) (millis_field s).
Definition ass_by_truncation (s : Q) : string :=
  ass_timestamp (truncate s) (centis_field s).

(** The number of microseconds [timedelta(seconds=s)] stands for: the
    integer part of [s] in microseconds plus the fractional part, scaled in
    double precision, the sum rounded half to even. *)
Definition microsecond_count (s : Q) : Z :=
  Float.round_half_even
    (inject_Z (Py.int s * Datetime.us_per_second)
     + Float.mul (inject_Z Datetime.us_per_second) (s - inject_Z (Py.int s))).

(** The microsecond counts a [timedelta] can hold. *)
Definition td_min : Z := - Datetime.max_days * Datetime.us_per_day.
Definition td_max : Z := (Datetime.max_days + 1) * Datetime.us_per_day - 1.
Definition in_td_range (us : Z) : Prop := td_min <= us <= td_max.

(** Number of occurrences of the character [c] in [s]. *)
Fixpoint count (c : ascii) (s : string) : nat :=
  match s with
  | EmptyString => O
  | String a s' => ((if Ascii.eqb a c then 1 else 0) + count c s')%nat
  end.

(** The pieces of [s] between the occurrences of [c]. *)
Fixpoint split (c : ascii) (s : string) : list string :=
  match s with
  | EmptyString => [""]
  | String a s' =>
      if Ascii.eqb a c then "" :: split c s'
      else match split c s' with
           | piece :: pieces => String a piece :: pieces
           | [] => [String a ""]
           end
  end.

(** The text with every newline replaced by the ASS line break token. *)
Definition ass_text (t : string) : string :=
  String.concat "\N" (split Py.LF_char t).

(** Removal of one leading [#], if there is one. *)
Definition strip_one_hash (s : string) : string :=
  match s with
  | String "#" s' => s'
  | _ => s
  end.

(** The string of the six characters [r1 r2 g1 g2 b1 b2]. *)
Definition six (r1 r2 g1 g2 b1 b2 : ascii) : string :=
  String r1 (String r2 (String g1 (String g2 (String b1 (String b2 ""))))).

(** The ASS colour token of those six characters: alpha [00], then the
    blue, green and red pairs, in upper case. *)
Definition bgr_token (r1 r2 g1 g2 b1 b2 : ascii) : string :=
  "&H00" ++ six (Py.upper_char b1) (Py.upper_char b2)
                (Py.upper_char g1) (Py.upper_char g2)
                (Py.upper_char r1) (Py.upper_char r2).

(** Concatenation of a list of strings. *)
Definition cat (ls : list string) : string := fold_right append "" ls.

(** A text made of the given lines, each followed by a line feed. *)
Definition unlines (ls : list string) : string :=
  cat (map (fun l => l ++ Py.LF) ls).

(** The SRT block of a row numbered [n]: the number, the time range, the
    text and a blank line. *)
Definition srt_block (n : Z) (row : Row) : result string :=
  s <- format_timestamp (start row) ;;
  e <- format_timestamp (end_ row) ;;
  Ok (unlines [Py.str n; s ++ " --> " ++ e; text row; ""]).

(** The blocks of the rows from 0-based position [i] on: the row at
    position [i] gets the number [i + 1]. *)
Fixpoint srt_blocks_from (i : Z) (rows : list Row) : result (list string) :=
  match rows with
  | [] => Ok []
  | r :: rows' =>
      b <- srt_block (i + 1) r ;;
      bs <- srt_blocks_from (i + 1) rows' ;;
      Ok (b :: bs)
  end.

(** The SRT document the specification describes: one block per row, in
    frame order, numbered by position. *)
Definition srt_document (df : DataFrame) : result string :=
  bs <- srt_blocks_from 0 (map snd df) ;; Ok (cat bs).

(** The ten fields of a Dialogue line, in the order of the Format line of
    the Events section: Layer, Start, End, Style, Name, MarginL, MarginR,
    MarginV, Effect, Text. *)
Definition dialogue_fields (s e t : string) : list string :=
  ["0"; s; e; "Default"; ""; "0"; "0"; "0"; ""; t].

(** The same with the three margin fields left empty. *)
Definition dialogue_fields_empty_margins (s e t : string) : list string :=
  ["0"; s; e; "Default"; ""; ""; ""; ""; ""; t].

(** The Dialogue line of a row, without its line terminator. *)
Definition dialogue_body (row : Row) : result string :=
  s <- format_timestamp_ass (start row) ;;
  e <- format_timestamp_ass (end_ row) ;;
  Ok ("Dialogue: " ++ String.concat "," (dialogue_fields s e (ass_text (text row)))).

Definition dialogue_body_empty_margins (row : Row) : result string :=
  s <- format_timestamp_ass (start row) ;;
  e <- format_timestamp_ass (end_ row) ;;
  Ok ("Dialogue: "
      ++ String.concat "," (dialogue_fields_empty_margins s e (ass_text (text row)))).

(** The columns of the Style line after the style name, in order. *)
Definition style_columns (st : Style) : list string :=
  [ font_name st; Py.str (font_size st); primary_color st; "&H000000FF";
    outline_color st; "&H00000000"; "0"; "0"; "0"; "0"; "100"; "100"; "0";
    "0"; "1"; Py.str (outline_width st); Py.str (shadow_depth st);
    Py.str (alignment st); "10"; "10"; Py.str (margin_v st); "1" ].

Definition style_line (st : Style) : string :=
  "Style: " ++ String.concat "," ("Default" :: style_columns st).

(** The fixed lines of the header before and after the Style line. *)
Definition script_info_lines : list string :=
  [ "[Script Info]"; "Title: Streamlit Auto Subtitles"; "ScriptType: v4.00+";
    "WrapStyle: 0"; "ScaledBorderAndShadow: yes"; "YCbCr Matrix: None"; "";
    "[V4+ Styles]";
    "Format: Name, Fontname, Fontsize, PrimaryColour, SecondaryColour, OutlineColour, BackColour, Bold, Italic, Underline, StrikeOut, ScaleX, ScaleY, Spacing, Angle, BorderStyle, Outline, Shadow, Alignment, MarginL, MarginR, MarginV, Encoding" ].

Definition events_lines : list string :=
  [ ""; "[Events]";
    "Format: Layer, Start, End, Style, Name, MarginL, MarginR, MarginV, Effect, Text" ].

(** The ASS document of a frame: the header lines with the single Style
    line, then one Dialogue line per row, in frame order. *)
Definition ass_document (df : DataFrame) (st : Style) : result string :=
  bodies <- mapM (fun p => dialogue_body (snd p)) df ;;
  Ok (unlines (script_info_lines ++ [style_line st] ++ events_lines ++ bodies)).

(** The same document with the margin fields of the Dialogue lines empty. *)
Definition ass_document_empty_margins (df : DataFrame) (st : Style) : result string :=
  bodies <- mapM (fun p => dialogue_body_empty_margins (snd p)) df ;;
  Ok (unlines (script_info_lines ++ [style_line st] ++ events_lines ++ bodies)).

(** Whether [s] begins with [p]. *)
Fixpoint starts_with (p s : string) : bool :=
  match p, s with
  | EmptyString, _ => true
  | String a p', String b s' => Ascii.eqb a b && starts_with p' s'
  | String _ _, EmptyString => false
  end.

(** The lines of a text that begin with [p]. *)
Definition lines_with_prefix (p : string) (ls : list string) : list string :=
  filter (starts_with p) ls.

End Spec.

(** ** The script around the builders: preview and sidebar *)

Module App.

(** [sub in s] for two strings: whether [sub] occurs in [s]. *)
Fixpoint str_in (sub s : string) : bool :=
  Spec.starts_with sub s ||
  match s with
  | EmptyString => false
  | String _ s' => str_in sub s'
  end.

(** The test that chooses [st.video] over [st.audio] for an upload:
    [any(ext in uploaded_file.name for ext in ["mp4", "mov"])]. *)
Definition shows_video (name : string) : bool :=
  existsb (fun ext => str_in ext name) ["mp4"; "mov"].

(** A [dict] with string keys, as the list of its items; [d[k]] is [None]
    where Python raises [KeyError]. *)
Fixpoint dict_get {V : Type} (d : list (string * V)) (k : string) : option V :=
  match d with
  | [] => None
  | (k', v) :: d' => if String.eqb k' k then Some v else dict_get d' k
  end.

(** [list(d.keys())], the options handed to a select box. *)
Definition dict_keys {V : Type} (d : list (string * V)) : list string :=
  map fst d.

(** The two tables of the sidebar.  The labels are written in UTF-8; they
    are only compared with one another. *)
Definition font_map : list (string * string) :=
  [ ("MS Gothic (標準)", "MS Gothic");
    ("MS Mincho (明朝体)", "MS Mincho");
    ("Meiryo (メイリオ)", "Meiryo");
    ("Yu Gothic (游ゴシック)", "Yu Gothic");
    ("Arial (英数字向け)", "Arial") ].

Definition alignment_map : list (string * Z) :=
  [ ("下中央", 2); ("中中央", 5); ("上中央", 8) ].

(** What the widgets of the style section of the sidebar return. *)
Record Sidebar : Type := mk_sidebar {
  font_label : string;
  ui_font_size : Z;
  font_color_hex : string;
  ui_outline_width : Z;
  outline_color_hex : string;
  position_label : string;
  ui_margin_v : Z
}.

(** The keyword arguments the script passes to [create_ass_content]; the
    call does not pass [shadow_depth], which keeps its default. *)
Definition sidebar_style (ui : Sidebar) : option Style :=
  match dict_get font_map (font_label ui),
        dict_get alignment_map (position_label ui) with
  | Some font_name, Some alignment =>
      let ass_primary_color := hex_to_ass_color (font_color_hex ui) in
      let ass_outline_color := hex_to_ass_color (outline_color_hex ui) in
      Some {| font_name := font_name;
              font_size := ui_font_size ui;
              primary_color := ass_primary_color;
              outline_color := ass_outline_color;
              outline_width := ui_outline_width ui;
              shadow_depth := shadow_depth default_style;
              alignment := alignment;
              margin_v := ui_margin_v ui |}
  | _, _ => None
  end.

(** The content of the ASS download button for the edited frame. *)
Definition ass_download (edited_df : DataFrame) (ui : Sidebar)
  : option (result string) :=
  option_map (create_ass_content edited_df) (sidebar_style ui).

End App.

(** Whether every character of [s] is an ASCII character, the characters on
    which [Py.upper] is Python's [upper()]. *)
Fixpoint is_ascii (s : string) : bool :=
  match s with
  | EmptyString => true
  | String a s' => (nat_of_ascii a <? 128)%nat && is_ascii s'
  end.

(** Sum of the newline counts of the texts of a frame. *)
Definition text_newlines (df : DataFrame) : nat :=
  fold_right (fun p n => (Spec.count Py.LF_char (text (snd p)) + n)%nat) 0%nat df.

(** Whether both timestamps of a row are within the range of [timedelta]. *)
Definition row_in_range (row : Row) : Prop :=
  Spec.in_td_range (Spec.microsecond_count (start row)) /\
  Spec.in_td_range (Spec.microsecond_count (end_ row)).

(** ** Sanity checks of the embedding on concrete inputs *)

Example format_timestamp_0 : format_timestamp 0 = Ok "00:00:00,000".
Proof. reflexivity. Qed.

Example format_timestamp_3661_5 : format_timestamp (36615 # 10) = Ok "01:01:01,500".
Proof. reflexivity. Qed.

Example format_timestamp_ass_3661_5 : format_timestamp_ass (36615 # 10) = Ok "1:01:01.50".
Proof. reflexivity. Qed.

Example format_timestamp_neg_half : format_timestamp (-1 # 2) = Ok "00:00:00,500".
Proof. reflexivity. Qed.

Example format_timestamp_overflow : format_timestamp 1000000000000000 = Raise OverflowError.
Proof. reflexivity. Qed.

Example format_timestamp_nan :
  format_timestamp_float Py.NaN = Raise ValueError /\
  format_timestamp_ass_float Py.NaN = Raise ValueError.
Proof. split; reflexivity. Qed.

Example format_timestamp_infinity :
  format_timestamp_float (Py.Infinity false) = Raise OverflowError /\
  format_timestamp_ass_float (Py.Infinity true) = Raise OverflowError.
Proof. split; reflexivity. Qed.

Example format_timestamp_rounds_in_double_precision :
  Float.representable (Float.round (9995 # 10000000)) = true /\
  Datetime.of_seconds (Float.round (9995 # 10000000))
    = Ok {| Datetime.days := 0; Datetime.seconds := 0;
            Datetime.microseconds := 1000 |} /\
  Datetime.of_seconds (Float.round (- 20005 # 10000000))
    = Ok {| Datetime.days := -1; Datetime.seconds := 86399;
            Datetime.microseconds := 998000 |}.
Proof. repeat split; vm_compute; reflexivity. Qed.

Example hex_to_ass_color_red : hex_to_ass_color "#FF0000" = "&H000000FF".
Proof. reflexivity. Qed.

Example hex_to_ass_color_lower : hex_to_ass_color "#a1b2c3" = "&H00C3B2A1".
Proof. reflexivity. Qed.

(** * Properties of the embedding *)

(** ** The error monad *)

Lemma bind_Ok {A B : Type} (a : A) (k : A -> result B) : bind (Ok a) k = k a.
Proof. reflexivity. Qed.

(** ** Decimal fields *)

Lemma forallb_below (P : Z -> bool) (b : nat) :
  forallb (fun k => P (Z.of_nat k)) (seq 0 b) = true ->
  forall n, 0 <= n < Z.of_nat b -> P n = true.
Proof.
  intros H n Hn.
  rewrite forallb_forall in H.
  specialize (H (Z.to_nat n)).
  rewrite Z2Nat.id in H by lia.
  apply H, in_seq. lia.
Qed.

Lemma format_0_2_digits2 (n : Z) :
  0 <= n < 100 -> Py.format_0 2 n = Spec.digits2 n.
Proof.
  intros Hn. apply String.eqb_eq.
  apply (forallb_below (fun k => String.eqb (Py.format_0 2 k) (Spec.digits2 k)) 100).
  - vm_compute. reflexivity.
  - simpl. lia.
Qed.

Lemma format_0_3_digits3 (n : Z) :
  0 <= n < 1000 -> Py.format_0 3 n = Spec.digits3 n.
Proof.
  intros Hn. apply String.eqb_eq.
  apply (forallb_below (fun k => String.eqb (Py.format_0 3 k) (Spec.digits3 k)) 1000).
  - vm_compute. reflexivity.
  - simpl. lia.
Qed.

(** ** Rounding *)

Lemma round_half_even_bound (x : Q) :
  let u := Float.round_half_even x in
  2 * u * Zpos (Qden x) - Zpos (Qden x) <= 2 * Qnum x
    <= 2 * u * Zpos (Qden x) + Zpos (Qden x).
Proof.
  unfold Float.round_half_even.
  pose proof (Z.div_mod (Qnum x) (Zpos (Qden x)) ltac:(lia)) as Hdm.
  pose proof (Z.mod_pos_bound (Qnum x) (Zpos (Qden x)) ltac:(lia)) as Hr.
  set (d := Zpos (Qden x)) in *.
  set (q := Qnum x / d) in *.
  set (r := Qnum x mod d) in *.
  destruct (Z.compare_spec (2 * r) d) as [He | Hl | Hg]; cbv zeta.
  - destruct (Z.even q); nia.
  - nia.
  - nia.
Qed.

Lemma round_half_even_near (x : Q) :
  (inject_Z (Float.round_half_even x) - (1 # 2) <= x
     <= inject_Z (Float.round_half_even x) + (1 # 2))%Q.
Proof.
  pose proof (round_half_even_bound x) as H. cbv zeta in H.
  destruct x as [n d]. cbn [Qnum Qden] in H.
  set (u := Float.round_half_even (n # d)) in *.
  unfold Qle, Qminus, Qplus, Qopp, inject_Z. cbn [Qnum Qden].
  rewrite !Pos.mul_1_l. split; lia.
Qed.

Lemma round_half_even_nonneg (x : Q) :
  (0 <= x)%Q -> 0 <= Float.round_half_even x.
Proof.
  intros Hx. unfold Qle in Hx. simpl in Hx. rewrite Z.mul_1_r in Hx.
  unfold Float.round_half_even.
  pose proof (Z.div_pos (Qnum x) (Zpos (Qden x)) Hx ltac:(lia)) as Hq.
  destruct (2 * (Qnum x mod Zpos (Qden x)) ?= Zpos (Qden x));
    [destruct (Z.even _) | |]; lia.
Qed.

Lemma round_half_even_nonpos (x : Q) :
  (x <= 0)%Q -> Float.round_half_even x <= 0.
Proof.
  intros Hx.
  pose proof (round_half_even_bound x) as H. cbv zeta in H.
  unfold Qle in Hx. simpl in Hx. rewrite Z.mul_1_r in Hx.
  nia.
Qed.

Lemma round_half_even_integer (x : Q) (z : Z) :
  (x == inject_Z z)%Q -> Float.round_half_even x = z.
Proof.
  intros Hx.
  pose proof (round_half_even_bound x) as H. cbv zeta in H.
  unfold Qeq in Hx. simpl in Hx. rewrite Z.mul_1_r in Hx.
  rewrite Hx in H. nia.
Qed.

(** ** Doubles *)

Lemma ilog2_below (x : Q) (k : Z) :
  0 <= k -> Z.abs (Qnum x) < 2 ^ k * Zpos (Qden x) -> Float.ilog2 x < k.
Proof.
  intros Hk Hx. unfold Float.ilog2.
  assert (Hd : 0 < Zpos (Qden x)) by lia.
  assert (Hn : 0 <= Z.abs (Qnum x)) by lia.
  generalize dependent (Z.abs (Qnum x)). generalize dependent (Zpos (Qden x)).
  intros d Hd n Hx Hn. cbv zeta.
  assert (He : Z.log2 n - Z.log2 d <= k).
  { destruct (Z.eq_dec n 0) as [-> | Hn0].
    - simpl. pose proof (Z.log2_nonneg d). lia.
    - assert (Hlt : Z.log2 n < k + Z.log2 d + 1).
      { apply Z.log2_lt_pow2; [lia |].
        pose proof (Z.log2_spec d Hd) as [_ Hd2].
        replace (k + Z.log2 d + 1) with (k + Z.succ (Z.log2 d)) by lia.
        rewrite Z.pow_add_r by (pose proof (Z.log2_nonneg d); lia).
        pose proof (Z.pow_pos_nonneg 2 k ltac:(lia) Hk). nia. }
      lia. }
  set (e := Z.log2 n - Z.log2 d) in *.
  destruct (Z.leb_spec 0 e) as [H0 | H0].
  - destruct (Z.ltb_spec n (2 ^ e * d)); [lia |].
    destruct (Z.eq_dec e k) as [-> | Hne]; lia.
  - destruct (n * 2 ^ (- e) <? d); lia.
Qed.

Lemma round_nonneg (x : Q) : (0 <= x)%Q -> (0 <= Float.round x)%Q.
Proof.
  intros Hx. unfold Float.round.
  destruct (Qnum x =? 0); [apply Qle_refl |].
  cbv zeta. set (e := Float.ulp_exponent x).
  destruct (Z.leb_spec 0 e) as [He | He].
  - assert (Hp : 0 < 2 ^ e) by (apply Z.pow_pos_nonneg; lia).
    rewrite <- (Zle_Qle 0). apply Z.mul_nonneg_nonneg; [| lia].
    apply round_half_even_nonneg.
    apply Qle_shift_div_l; [rewrite <- (Zlt_Qlt 0); exact Hp |].
    now rewrite Qmult_0_l.
  - assert (Hp : 0 < 2 ^ (- e)) by (apply Z.pow_pos_nonneg; lia).
    unfold Qle. cbn [Qnum Qden]. rewrite Z.mul_1_r, Z.mul_0_l.
    apply round_half_even_nonneg.
    apply Qmult_le_0_compat; [exact Hx |].
    rewrite <- (Zle_Qle 0). lia.
Qed.

Lemma round_nonpos (x : Q) : (x <= 0)%Q -> (Float.round x <= 0)%Q.
Proof.
  intros Hx. unfold Float.round.
  destruct (Qnum x =? 0); [apply Qle_refl |].
  cbv zeta. set (e := Float.ulp_exponent x).
  destruct (Z.leb_spec 0 e) as [He | He].
  - assert (Hp : 0 < 2 ^ e) by (apply Z.pow_pos_nonneg; lia).
    rewrite <- (Zle_Qle _ 0).
    assert (Hr : Float.round_half_even (x / inject_Z (2 ^ e)) <= 0).
    { apply round_half_even_nonpos.
      apply Qle_shift_div_r; [rewrite <- (Zlt_Qlt 0); exact Hp |].
      now rewrite Qmult_0_l. }
    nia.
  - assert (Hp : 0 < 2 ^ (- e)) by (apply Z.pow_pos_nonneg; lia).
    unfold Qle. cbn [Qnum Qden]. rewrite Z.mul_1_r, Z.mul_0_l.
    apply round_half_even_nonpos.
    setoid_replace 0%Q with (0 * inject_Z (2 ^ (- e)))%Q by ring.
    apply Qmult_le_compat_r; [exact Hx |].
    rewrite <- (Zle_Qle 0). lia.
Qed.

(** The rounding error of a double below [2^20] in magnitude. *)
Lemma round_error_small (x : Q) :
  (- (1048576) < x)%Q -> (x < 1048576)%Q ->
  (Float.round x - (1 # 17179869184) <= x
     <= Float.round x + (1 # 17179869184))%Q.
Proof.
  intros Hlo Hhi. unfold Float.round.
  destruct (Z.eqb_spec (Qnum x) 0) as [H0 | H0].
  - assert (Hx : (x == 0)%Q) by (unfold Qeq; simpl; lia).
    rewrite Hx. split; unfold Qle; simpl; lia.
  - cbv zeta.
    assert (Hl : Float.ilog2 x < 20).
    { apply ilog2_below; [lia |].
      unfold Qlt in Hlo, Hhi. cbn [Qnum Qden Qopp] in Hlo, Hhi. lia. }
    assert (He : Float.ulp_exponent x <= - 33) by (unfold Float.ulp_exponent; lia).
    set (e := Float.ulp_exponent x) in *.
    destruct (Z.leb_spec 0 e) as [Hge | _]; [lia |].
    assert (HM : 2 ^ 33 <= 2 ^ (- e)) by (apply Z.pow_le_mono_r; lia).
    set (M := 2 ^ (- e)) in *.
    pose proof (round_half_even_bound (x * inject_Z M)) as Hb. cbv zeta in Hb.
    set (u := Float.round_half_even (x * inject_Z M)) in *.
    destruct x as [n d]. cbn [Qnum Qden Qmult inject_Z] in Hb.
    rewrite Pos.mul_1_r in Hb.
    unfold Qle, Qminus, Qplus, Qopp. cbn [Qnum Qden].
    assert (HMp : Zpos (Z.to_pos M) = M) by (apply Z2Pos.id; lia).
    rewrite !Pos2Z.inj_mul, HMp.
    change (2 ^ 33) with 8589934592 in HM.
    split; nia.
Qed.

(** ** The integer and fractional parts *)

Lemma int_frac_nonneg (s : Q) :
  (0 <= s)%Q ->
  0 <= Py.int s /\ (0 <= s - inject_Z (Py.int s))%Q /\ (s - inject_Z (Py.int s) < 1)%Q.
Proof.
  intros Hs. unfold Py.int. destruct s as [n d].
  unfold Qle in Hs. cbn [Qnum Qden] in *. rewrite Z.mul_1_r in Hs. simpl in Hs.
  rewrite Z.quot_div_nonneg by lia.
  pose proof (Z.div_mod n (Zpos d) ltac:(lia)) as Hdm.
  pose proof (Z.mod_pos_bound n (Zpos d) ltac:(lia)) as Hr.
  split; [apply Z.div_pos; lia |].
  unfold Qle, Qlt, Qminus, Qplus, Qopp, inject_Z. cbn [Qnum Qden].
  rewrite !Pos.mul_1_r. split; nia.
Qed.

Lemma int_frac_nonpos (s : Q) :
  (s <= 0)%Q ->
  Py.int s <= 0 /\ (s - inject_Z (Py.int s) <= 0)%Q /\ (- (1) < s - inject_Z (Py.int s))%Q.
Proof.
  intros Hs. unfold Py.int. destruct s as [n d].
  unfold Qle in Hs. cbn [Qnum Qden] in *. rewrite Z.mul_1_r in Hs. simpl in Hs.
  assert (Hq : Z.quot n (Zpos d) <= 0)
    by (Z.to_euclidean_division_equations; nia).
  split; [exact Hq |].
  unfold Qle, Qlt, Qminus, Qplus, Qopp, inject_Z. cbn [Qnum Qden].
  rewrite !Pos.mul_1_r. split; Z.to_euclidean_division_equations; nia.
Qed.

Lemma frac_bounds (s : Q) :
  (- (1) < s - inject_Z (Py.int s))%Q /\ (s - inject_Z (Py.int s) < 1)%Q.
Proof.
  destruct (Qlt_le_dec s 0) as [Hn | Hp].
  - destruct (int_frac_nonpos s (Qlt_le_weak _ _ Hn)) as (_ & H1 & H2).
    split; [exact H2 | lra].
  - destruct (int_frac_nonneg s Hp) as (_ & H1 & H2).
    split; [lra | exact H2].
Qed.

(** ** The microsecond count of a [timedelta] *)

Lemma scaled_frac_bounds (s : Q) :
  (- (1048576) < inject_Z Datetime.us_per_second * (s - inject_Z (Py.int s)))%Q /\
  (inject_Z Datetime.us_per_second * (s - inject_Z (Py.int s)) < 1048576)%Q.
Proof.
  destruct (frac_bounds s) as [H1 H2].
  change (inject_Z Datetime.us_per_second) with (1000000 # 1).
  split; lra.
Qed.

Lemma of_seconds_count (s : Q) :
  Datetime.of_seconds s = Datetime.of_microseconds (Spec.microsecond_count s).
Proof.
  unfold Datetime.of_seconds, Spec.microsecond_count.
  destruct (Z.eqb_spec (Qnum (s - inject_Z (Py.int s))) 0) as [H0 | H0];
    [| reflexivity].
  f_equal. symmetry. apply round_half_even_integer.
  unfold Float.mul, Float.round.
  replace (Qnum (inject_Z Datetime.us_per_second * (s - inject_Z (Py.int s))))
    with 0 by (cbn [Qnum Qmult inject_Z]; rewrite H0; lia).
  simpl (0 =? 0). cbv iota. ring.
Qed.

Lemma microsecond_count_near (s : Q) :
  (inject_Z (Spec.microsecond_count s) - (1 # 2) - (1 # 17179869184)
     <= s * 1000000
     <= inject_Z (Spec.microsecond_count s) + (1 # 2) + (1 # 17179869184))%Q.
Proof.
  unfold Spec.microsecond_count, Float.mul.
  destruct (scaled_frac_bounds s) as [Hlo Hhi].
  pose proof (round_error_small _ Hlo Hhi) as [E1 E2].
  set (dn := Float.round _) in *.
  pose proof (round_half_even_near
                (inject_Z (Py.int s * Datetime.us_per_second) + dn)) as [R1 R2].
  set (u := Float.round_half_even _) in *.
  rewrite inject_Z_mult in R1, R2.
  change (inject_Z Datetime.us_per_second) with (1000000 # 1) in *.
  set (i := inject_Z (Py.int s)) in *.
  split; lra.
Qed.

Lemma microsecond_count_nonneg (s : Q) :
  (0 <= s)%Q -> 0 <= Spec.microsecond_count s.
Proof.
  intros Hs. destruct (int_frac_nonneg s Hs) as (Hi & Hf & _).
  apply round_half_even_nonneg.
  assert (H1 : (0 <= inject_Z (Py.int s * Datetime.us_per_second))%Q).
  { rewrite <- (Zle_Qle 0). unfold Datetime.us_per_second. lia. }
  assert (H2 : (0 <= Float.mul (inject_Z Datetime.us_per_second)
                      (s - inject_Z (Py.int s)))%Q).
  { apply round_nonneg. apply Qmult_le_0_compat; [discriminate | exact Hf]. }
  lra.
Qed.

Lemma microsecond_count_nonpos (s : Q) :
  (s <= 0)%Q -> Spec.microsecond_count s <= 0.
Proof.
  intros Hs. destruct (int_frac_nonpos s Hs) as (Hi & Hf & _).
  apply round_half_even_nonpos.
  assert (H1 : (inject_Z (Py.int s * Datetime.us_per_second) <= 0)%Q).
  { rewrite <- (Zle_Qle _ 0). unfold Datetime.us_per_second. lia. }
  assert (H2 : (Float.mul (inject_Z Datetime.us_per_second)
                  (s - inject_Z (Py.int s)) <= 0)%Q).
  { apply round_nonpos.
    change (inject_Z Datetime.us_per_second) with (1000000 # 1). lra. }
  lra.
Qed.

(** Where the scaled fractional part lies between two whole numbers of
    microseconds, with room to the next half, the count lies between them
    too. *)
Lemma microsecond_count_window (s : Q) (a b : Z) :
  (inject_Z a <= (s - inject_Z (Py.int s)) * 1000000)%Q ->
  ((s - inject_Z (Py.int s)) * 1000000 <= inject_Z b + (4 # 10))%Q ->
  Py.int s * 1000000 + a <= Spec.microsecond_count s <= Py.int s * 1000000 + b.
Proof.
  intros Ha Hb.
  unfold Spec.microsecond_count, Float.mul.
  destruct (scaled_frac_bounds s) as [Hlo Hhi].
  pose proof (round_error_small _ Hlo Hhi) as [E1 E2].
  set (dn := Float.round _) in *.
  pose proof (round_half_even_near
                (inject_Z (Py.int s * Datetime.us_per_second) + dn)) as [R1 R2].
  set (u := Float.round_half_even _) in *.
  rewrite inject_Z_mult in R1, R2.
  change (inject_Z Datetime.us_per_second) with (1000000 # 1) in *.
  assert (L : (inject_Z (Py.int s * 1000000 + a + -1) < inject_Z u)%Q).
  { rewrite !inject_Z_plus, inject_Z_mult.
    change (inject_Z 1000000) with (1000000 # 1).
    change (inject_Z (-1)) with (-1 # 1).
    set (i := inject_Z (Py.int s)) in *. lra. }
  assert (U : (inject_Z u < inject_Z (Py.int s * 1000000 + b + 1))%Q).
  { rewrite !inject_Z_plus, inject_Z_mult.
    change (inject_Z 1000000) with (1000000 # 1).
    change (inject_Z 1) with 1%Q.
    set (i := inject_Z (Py.int s)) in *. lra. }
  rewrite <- Zlt_Qlt in L, U. lia.
Qed.

(** ** [timedelta] *)

Lemma int_truediv (a : Z) (b : positive) :
  Py.int (Py.truediv a (Zpos b)) = Z.quot a (Zpos b).
Proof.
  unfold Py.int, Py.truediv. simpl.
  now rewrite Z.mul_1_r.
Qed.

Lemma in_td_range_days (us : Z) :
  Spec.in_td_range us <->
  - Datetime.max_days <= us / Datetime.us_per_day <= Datetime.max_days.
Proof.
  unfold Spec.in_td_range, Spec.td_min, Spec.td_max,
    Datetime.us_per_day, Datetime.us_per_second, Datetime.max_days.
  split; intros H.
  - Z.to_euclidean_division_equations. lia.
  - Z.to_euclidean_division_equations. lia.
Qed.

Lemma of_microseconds_Ok (us : Z) :
  Spec.in_td_range us ->
  Datetime.of_microseconds us =
    Ok (Datetime.mk_timedelta (us / Datetime.us_per_day)
          (us mod Datetime.us_per_day / Datetime.us_per_second)
          (us mod Datetime.us_per_second)).
Proof.
  intros H. apply in_td_range_days in H.
  unfold Datetime.of_microseconds.
  destruct (Z.ltb_spec (us / Datetime.us_per_day) (- Datetime.max_days)); [lia |].
  destruct (Z.ltb_spec Datetime.max_days (us / Datetime.us_per_day)); [lia |].
  reflexivity.
Qed.

Lemma of_microseconds_Raise (us : Z) :
  ~ Spec.in_td_range us ->
  Datetime.of_microseconds us = Raise OverflowError.
Proof.
  intros H. rewrite in_td_range_days in H.
  unfold Datetime.of_microseconds.
  destruct (Z.ltb_spec (us / Datetime.us_per_day) (- Datetime.max_days));
    [reflexivity |].
  destruct (Z.ltb_spec Datetime.max_days (us / Datetime.us_per_day));
    [reflexivity | lia].
Qed.

Lemma to_microseconds_normalised (us : Z) :
  Datetime.to_microseconds
    (Datetime.mk_timedelta (us / Datetime.us_per_day)
       (us mod Datetime.us_per_day / Datetime.us_per_second)
       (us mod Datetime.us_per_second)) = us.
Proof.
  unfold Datetime.to_microseconds, Datetime.us_per_day, Datetime.us_per_second.
  simpl.
  Z.to_euclidean_division_equations. lia.
Qed.

(** The whole seconds and the sub-second fields the two formatters compute,
    as functions of the microsecond count of the [timedelta]. *)
Lemma format_timestamp_us (s : Q) :
  let us := Spec.microsecond_count s in
  Spec.in_td_range us ->
  format_timestamp s =
    Ok (let T := Z.quot us 1000000 in
        Py.format_0 2 (T / 3600) ++ ":" ++ Py.format_0 2 (T mod 3600 / 60) ++ ":"
          ++ Py.format_0 2 (T mod 60) ++ ","
          ++ Py.format_0 3 (Z.quot (us mod 1000000) 1000)).
Proof.
  intros us H.
  unfold format_timestamp. rewrite of_seconds_count. fold us.
  rewrite (of_microseconds_Ok us H), bind_Ok.
  unfold Datetime.total_seconds.
  rewrite to_microseconds_normalised.
  cbv [Datetime.microseconds Datetime.us_per_second].
  now rewrite !int_truediv.
Qed.

Lemma format_timestamp_ass_us (s : Q) :
  let us := Spec.microsecond_count s in
  Spec.in_td_range us ->
  format_timestamp_ass s =
    Ok (let T := Z.quot us 1000000 in
        Py.str (T / 3600) ++ ":" ++ Py.format_0 2 (T mod 3600 / 60) ++ ":"
          ++ Py.format_0 2 (T mod 60) ++ "."
          ++ Py.format_0 2 (Z.quot (us mod 1000000) 10000)).
Proof.
  intros us H.
  unfold format_timestamp_ass. rewrite of_seconds_count. fold us.
  rewrite (of_microseconds_Ok us H), bind_Ok.
  unfold Datetime.total_seconds.
  rewrite to_microseconds_normalised.
  cbv [Datetime.microseconds Datetime.us_per_second].
  now rewrite !int_truediv.
Qed.

Lemma format_timestamp_Raise (s : Q) :
  ~ Spec.in_td_range (Spec.microsecond_count s) ->
  format_timestamp s = Raise OverflowError /\
  format_timestamp_ass s = Raise OverflowError.
Proof.
  intros H.
  unfold format_timestamp, format_timestamp_ass.
  now rewrite of_seconds_count, (of_microseconds_Raise _ H).
Qed.

(** ** Decimal numerals *)

Lemma str_length_ge_2 (h : Z) : 10 <= h -> (2 <= String.length (Py.str h))%nat.
Proof.
  intros Hh. destruct h as [| p | p]; try lia.
  unfold Py.str. simpl.
  pose proof (DecimalPos.Unsigned.of_to p) as Hp.
  destruct (Pos.to_uint p) as [| d | d | d | d | d | d | d | d | d | d];
    simpl in Hp; try discriminate Hp;
    destruct d; simpl in *; try lia;
    injection Hp as Hp; lia.
Qed.

Lemma format_0_2_hours (h : Z) : 0 <= h -> Py.format_0 2 h = Spec.hours_field h.
Proof.
  intros Hh. unfold Spec.hours_field.
  destruct (Z.ltb_spec h 10) as [Hlt | Hge].
  - apply String.eqb_eq.
    apply (forallb_below
             (fun k => String.eqb (Py.format_0 2 k) (String "0" (Py.str k))) 10).
    + vm_compute. reflexivity.
    + simpl. lia.
  - unfold Py.format_0, Py.zero_pad.
    destruct (Z.ltb_spec h 0); [lia |].
    pose proof (str_length_ge_2 h Hge) as Hlen.
    replace (2 - String.length (Py.str h))%nat with 0%nat by lia.
    reflexivity.
Qed.

(** ** The range of [timedelta] *)

Lemma td_max_value : Spec.td_max = 86399999999999999999.
Proof. reflexivity. Qed.

(** Inputs of less than 10^9 days are within the range of [timedelta]. *)
Lemma microsecond_count_below_max (s : Q) :
  (s <= 86399999999999)%Q -> Spec.microsecond_count s <= Spec.td_max.
Proof.
  intros Hs. rewrite td_max_value.
  pose proof (microsecond_count_near s) as [Hlo _].
  assert (H : (inject_Z (Spec.microsecond_count s)
               < inject_Z 86399999999999000001)%Q).
  { change (inject_Z 86399999999999000001) with (86399999999999000001 # 1).
    lra. }
  rewrite <- Zlt_Qlt in H. lia.
Qed.

(** ** The fields of a timestamp *)

Lemma clock_fields (T : Z) :
  0 <= T ->
  0 <= T / 3600 /\ T mod 3600 / 60 = T / 60 mod 60 /\
  0 <= T / 60 mod 60 < 60 /\ 0 <= T mod 60 < 60.
Proof. intros H. Z.to_euclidean_division_equations. lia. Qed.

Lemma sub_second_fields (us : Z) :
  Z.quot (us mod 1000000) 1000 = us mod 1000000 / 1000 /\
  Z.quot (us mod 1000000) 10000 = us mod 1000000 / 10000 /\
  0 <= us mod 1000000 / 1000 < 1000 /\
  0 <= us mod 1000000 / 10000 < 100.
Proof.
  pose proof (Z.mod_pos_bound us 1000000 ltac:(lia)) as Hr.
  rewrite !Z.quot_div_nonneg by lia.
  Z.to_euclidean_division_equations. lia.
Qed.

Lemma in_td_range_nonneg (us : Z) :
  0 <= us -> us <= Spec.td_max -> Spec.in_td_range us.
Proof.
  unfold Spec.in_td_range, Spec.td_min, Spec.td_max. intros H0 H1.
  split; [| exact H1].
  unfold Datetime.max_days, Datetime.us_per_day, Datetime.us_per_second. lia.
Qed.

(** For a non-negative duration both formatters print the truncated whole
    seconds of the microsecond count and its truncated sub-second field. *)
Lemma format_timestamp_nonneg (s : Q) :
  let us := Spec.microsecond_count s in
  0 <= us -> us <= Spec.td_max ->
  format_timestamp s =
    Ok (Spec.srt_timestamp (us / 1000000) (us mod 1000000 / 1000)).
Proof.
  intros us H0 H1.
  rewrite (format_timestamp_us s (in_td_range_nonneg _ H0 H1)).
  fold us. cbv zeta.
  rewrite Z.quot_div_nonneg by lia.
  assert (HT : 0 <= us / 1000000) by (apply Z.div_pos; lia).
  destruct (clock_fields _ HT) as (Hh & Hm & Hmr & Hsr).
  destruct (sub_second_fields us) as (Hms & _ & Hmsr & _).
  rewrite Hms, Hm.
  rewrite (format_0_2_hours _ Hh), (format_0_3_digits3 _ Hmsr),
    !format_0_2_digits2 by lia.
  reflexivity.
Qed.

Lemma format_timestamp_ass_nonneg (s : Q) :
  let us := Spec.microsecond_count s in
  0 <= us -> us <= Spec.td_max ->
  format_timestamp_ass s =
    Ok (Spec.ass_timestamp (us / 1000000) (us mod 1000000 / 10000)).
Proof.
  intros us H0 H1.
  rewrite (format_timestamp_ass_us s (in_td_range_nonneg _ H0 H1)).
  fold us. cbv zeta.
  rewrite Z.quot_div_nonneg by lia.
  assert (HT : 0 <= us / 1000000) by (apply Z.div_pos; lia).
  destruct (clock_fields _ HT) as (Hh & Hm & Hmr & Hsr).
  destruct (sub_second_fields us) as (_ & Hcs & _ & Hcsr).
  rewrite Hcs, Hm.
  rewrite !format_0_2_digits2 by lia.
  reflexivity.
Qed.

(** A duration of less than a second before zero: [int()] truncates the
    total seconds to [0] while the normalised microsecond field counts up
    from the previous whole second. *)
Lemma format_timestamp_last_second_before_zero (s : Q) :
  let us := Spec.microsecond_count s in
  - 1000000 < us < 0 ->
  format_timestamp s =
    Ok ("00:00:00," ++ Spec.digits3 ((us + 1000000) / 1000)).
Proof.
  intros us H.
  assert (Hr : Spec.in_td_range us).
  { unfold Spec.in_td_range, Spec.td_min, Spec.td_max, Datetime.max_days,
      Datetime.us_per_day, Datetime.us_per_second. lia. }
  rewrite (format_timestamp_us s Hr). fold us. cbv zeta.
  assert (HT : Z.quot us 1000000 = 0).
  { apply Z.quot_small_iff; lia. }
  assert (Hm : us mod 1000000 = us + 1000000).
  { symmetry. apply (Z.mod_unique us 1000000 (-1)); lia. }
  rewrite HT, Hm.
  rewrite Z.quot_div_nonneg by lia.
  rewrite format_0_3_digits3
    by (split; [apply Z.div_pos; lia | apply Z.div_lt_upper_bound; lia]).
  reflexivity.
Qed.

(** * The timestamp formatters *)

(** C3 (as stated, refuted).  The float 0.9999996 has a sub-second
    remainder of 999.9996 ms: truncation would print second 0 with 999 ms
    (99 cs), but [timedelta] holds 1000000 microseconds for it and both
    formatters print the next whole second. *)
Lemma C3_sub_microsecond_remainder_rolls_over :
  let s := Float.round (9999996 # 10000000) in
  Float.representable s = true /\
  (0 <= s)%Q /\
  Spec.truncate s = 0 /\ Spec.millis_field s = 999 /\ Spec.centis_field s = 99 /\
  format_timestamp s = Ok "00:00:01,000" /\
  format_timestamp_ass s = Ok "0:00:01.00" /\
  format_timestamp s <> Ok (Spec.srt_by_truncation s) /\
  format_timestamp_ass s <> Ok (Spec.ass_by_truncation s).
Proof.
  cbv zeta. repeat split; try (vm_compute; reflexivity).
  - vm_compute. discriminate.
  - intros H. vm_compute in H. discriminate H.
  - intros H. vm_compute in H. discriminate H.
Qed.

(** C3 (amended).  For a non-negative input within the range of
    [timedelta], the input is first turned into a whole number of
    microseconds: the integer part exactly, the fractional part multiplied
    by 10^6 in double precision, the sum rounded to the nearest integer with
    ties to the even one, which is within 0.5 + 2^-34 microseconds of the
    input.  From that count both formatters take the whole seconds and the
    sub-second field by truncation: milliseconds are the remainder of the
    count modulo 10^6 divided by 1000, centiseconds the same divided by
    10000, both rounded down.  A sub-second remainder of 999.6 ms, as every
    remainder from 999 ms to 999.9994 ms, yields the millisecond field 999
    and the centisecond field 99 and leaves the whole seconds unchanged. *)
Theorem C3_fields_truncate_rounded_microseconds :
  forall s : Q,
  (0 <= s)%Q ->
  let us := Spec.microsecond_count s in
  us <= Spec.td_max ->
  (inject_Z us - (1 # 2) - (1 # 17179869184) <= s * 1000000
     <= inject_Z us + (1 # 2) + (1 # 17179869184))%Q /\
  format_timestamp s =
    Ok (Spec.srt_timestamp (us / 1000000) (us mod 1000000 / 1000)) /\
  format_timestamp_ass s =
    Ok (Spec.ass_timestamp (us / 1000000) (us mod 1000000 / 10000)) /\
  ((999 # 1000 <= Spec.sub_second s)%Q ->
   (Spec.sub_second s <= 9999994 # 10000000)%Q ->
   us / 1000000 = Spec.truncate s /\ us mod 1000000 / 1000 = 999 /\
   us mod 1000000 / 10000 = 99).
Proof.
  intros s Hs us Hmax.
  pose proof (microsecond_count_nonneg s Hs) as H0. fold us in H0.
  split; [apply microsecond_count_near |].
  split; [apply format_timestamp_nonneg; assumption |].
  split; [apply format_timestamp_ass_nonneg; assumption |].
  intros Hlo Hhi.
  change (Spec.sub_second s) with (s - inject_Z (Py.int s))%Q in Hlo, Hhi.
  change (Spec.truncate s) with (Py.int s).
  assert (Hw : Py.int s * 1000000 + 999000 <= us <= Py.int s * 1000000 + 999999).
  { apply microsecond_count_window.
    - change (inject_Z 999000) with (999000 # 1). lra.
    - change (inject_Z 999999) with (999999 # 1). lra. }
  Z.to_euclidean_division_equations. lia.
Qed.

Lemma C3_fields_truncate_witness :
  format_timestamp (Float.round (9996 # 10000)) = Ok "00:00:00,999" /\
  format_timestamp_ass (Float.round (9996 # 10000)) = Ok "0:00:00.99" /\
  Spec.microsecond_count (Float.round (129996 # 10000)) / 1000000 = 12 /\
  Spec.microsecond_count (Float.round (129996 # 10000)) mod 1000000 / 1000 = 999 /\
  Spec.microsecond_count (Float.round (129996 # 10000)) mod 1000000 / 10000 = 99.
Proof.
  assert (H0 : (0 <= Float.round (9996 # 10000))%Q)
    by (apply Qle_bool_iff; vm_compute; reflexivity).
  assert (H1 : Spec.microsecond_count (Float.round (9996 # 10000)) <= Spec.td_max)
    by (vm_compute; discriminate).
  destruct (C3_fields_truncate_rounded_microseconds _ H0 H1)
    as (_ & Hsrt & Hass & _).
  split; [exact Hsrt |]. split; [exact Hass |].
  assert (H2 : (0 <= Float.round (129996 # 10000))%Q)
    by (apply Qle_bool_iff; vm_compute; reflexivity).
  assert (H3 : Spec.microsecond_count (Float.round (129996 # 10000)) <= Spec.td_max)
    by (vm_compute; discriminate).
  destruct (C3_fields_truncate_rounded_microseconds _ H2 H3)
    as (_ & _ & _ & Hk).
  apply Hk; apply Qle_bool_iff; vm_compute; reflexivity.
Defined.

(** C4 (as stated, refuted).  At the float 3661.9999996 the truncated
    second count is 3661 and the truncated millisecond remainder 999, but
    the code prints [01:01:02,000]. *)
Lemma C4_srt_not_by_truncation :
  ~ (forall s : Q,
       Float.representable s = true -> (0 <= s)%Q ->
       format_timestamp s = Ok (Spec.srt_by_truncation s)).
Proof.
  intros H.
  specialize (H (Float.round (36619999996 # 10000000))).
  assert (Hr : Float.representable (Float.round (36619999996 # 10000000)) = true)
    by (vm_compute; reflexivity).
  assert (H0 : (0 <= Float.round (36619999996 # 10000000))%Q)
    by (apply Qle_bool_iff; vm_compute; reflexivity).
  specialize (H Hr H0). vm_compute in H. discriminate H.
Qed.

(** C4 (amended).  For a non-negative input for which [timedelta] holds a
    whole number of microseconds within its range (the integer part of the
    input exactly, the fractional part scaled by 10^6 in double precision,
    the sum rounded half to even), [format_timestamp] returns
    [HH:MM:SS,mmm], where hours, minutes, seconds and milliseconds decompose
    the truncated whole milliseconds of that count; the hour field is
    zero-padded to two digits and is neither bounded nor reduced modulo 24.
    In particular [format_timestamp(0)] is [00:00:00,000] and
    [format_timestamp(3661.5)] is [01:01:01,500]. *)
Theorem C4_format_timestamp_srt_form :
  (forall s : Q,
     (0 <= s)%Q ->
     let us := Spec.microsecond_count s in
     us <= Spec.td_max ->
     exists h m sec ms : Z,
       0 <= h /\ 0 <= m < 60 /\ 0 <= sec < 60 /\ 0 <= ms < 1000 /\
       ((h * 60 + m) * 60 + sec) * 1000 + ms = us / 1000 /\
       format_timestamp s =
         Ok (Spec.hours_field h ++ ":" ++ Spec.digits2 m ++ ":"
             ++ Spec.digits2 sec ++ "," ++ Spec.digits3 ms)) /\
  format_timestamp 0 = Ok "00:00:00,000" /\
  format_timestamp (36615 # 10) = Ok "01:01:01,500" /\
  format_timestamp 360000 = Ok "100:00:00,000".
Proof.
  split; [| repeat split; reflexivity].
  intros s Hs us Hmax.
  pose proof (microsecond_count_nonneg s Hs) as H0. fold us in H0.
  set (T := us / 1000000).
  exists (T / 3600), (T / 60 mod 60), (T mod 60), (us mod 1000000 / 1000).
  assert (HT : 0 <= T) by (apply Z.div_pos; lia).
  destruct (clock_fields T HT) as (Hh & _ & Hm & Hsec).
  destruct (sub_second_fields us) as (_ & _ & Hms & _).
  repeat (split; [assumption || lia |]).
  split.
  - subst T. Z.to_euclidean_division_equations. lia.
  - apply format_timestamp_nonneg; assumption.
Qed.

Lemma C4_format_timestamp_witness :
  exists h m sec ms : Z,
    0 <= h /\ 0 <= m < 60 /\ 0 <= sec < 60 /\ 0 <= ms < 1000 /\
    ((h * 60 + m) * 60 + sec) * 1000 + ms = 3661500 /\
    format_timestamp (36615 # 10) =
      Ok (Spec.hours_field h ++ ":" ++ Spec.digits2 m ++ ":"
          ++ Spec.digits2 sec ++ "," ++ Spec.digits3 ms).
Proof.
  assert (H0 : (0 <= 36615 # 10)%Q) by (unfold Qle; simpl; lia).
  assert (H1 : Spec.microsecond_count (36615 # 10) <= Spec.td_max)
    by (vm_compute; discriminate).
  exact (proj1 C4_format_timestamp_srt_form (36615 # 10)%Q H0 H1).
Defined.

(** C5 (as stated, refuted).  At the float 0.0099996 the sub-second
    remainder truncated to hundredths is 0, but the code prints
    [0:00:00.01]. *)
Lemma C5_ass_not_by_truncation :
  ~ (forall s : Q,
       Float.representable s = true -> (0 <= s)%Q ->
       format_timestamp_ass s = Ok (Spec.ass_by_truncation s)).
Proof.
  intros H.
  specialize (H (Float.round (99996 # 10000000))).
  assert (Hr : Float.representable (Float.round (99996 # 10000000)) = true)
    by (vm_compute; reflexivity).
  assert (H0 : (0 <= Float.round (99996 # 10000000))%Q)
    by (apply Qle_bool_iff; vm_compute; reflexivity).
  specialize (H Hr H0). vm_compute in H. discriminate H.
Qed.

(** C5 (amended).  For a non-negative input for which [timedelta] holds a
    whole number of microseconds within its range (the integer part of the
    input exactly, the fractional part scaled by 10^6 in double precision,
    the sum rounded half to even), [format_timestamp_ass] returns
    [H:MM:SS.cc]: hours, minutes, seconds and centiseconds decompose the
    truncated whole hundredths of that count; the hours are the plain
    decimal numeral, the other three fields have exactly two digits.  In
    particular [format_timestamp_ass(3661.5)] is [1:01:01.50]. *)
Theorem C5_format_timestamp_ass_form :
  (forall s : Q,
     (0 <= s)%Q ->
     let us := Spec.microsecond_count s in
     us <= Spec.td_max ->
     exists h m sec cs : Z,
       0 <= h /\ 0 <= m < 60 /\ 0 <= sec < 60 /\ 0 <= cs < 100 /\
       ((h * 60 + m) * 60 + sec) * 100 + cs = us / 10000 /\
       format_timestamp_ass s =
         Ok (Py.str h ++ ":" ++ Spec.digits2 m ++ ":"
             ++ Spec.digits2 sec ++ "." ++ Spec.digits2 cs)) /\
  format_timestamp_ass (36615 # 10) = Ok "1:01:01.50".
Proof.
  split; [| reflexivity].
  intros s Hs us Hmax.
  pose proof (microsecond_count_nonneg s Hs) as H0. fold us in H0.
  set (T := us / 1000000).
  exists (T / 3600), (T / 60 mod 60), (T mod 60), (us mod 1000000 / 10000).
  assert (HT : 0 <= T) by (apply Z.div_pos; lia).
  destruct (clock_fields T HT) as (Hh & _ & Hm & Hsec).
  destruct (sub_second_fields us) as (_ & _ & _ & Hcs).
  repeat (split; [assumption || lia |]).
  split.
  - subst T. Z.to_euclidean_division_equations. lia.
  - apply format_timestamp_ass_nonneg; assumption.
Qed.

Lemma C5_format_timestamp_ass_witness :
  exists h m sec cs : Z,
    0 <= h /\ 0 <= m < 60 /\ 0 <= sec < 60 /\ 0 <= cs < 100 /\
    ((h * 60 + m) * 60 + sec) * 100 + cs = 366150 /\
    format_timestamp_ass (36615 # 10) =
      Ok (Py.str h ++ ":" ++ Spec.digits2 m ++ ":"
          ++ Spec.digits2 sec ++ "." ++ Spec.digits2 cs).
Proof.
  assert (H0 : (0 <= 36615 # 10)%Q) by (unfold Qle; simpl; lia).
  assert (H1 : Spec.microsecond_count (36615 # 10) <= Spec.td_max)
    by (vm_compute; discriminate).
  exact (proj1 C5_format_timestamp_ass_form (36615 # 10)%Q H0 H1).
Defined.

(** C10 (as stated, refuted).  The float -0.9999996 lies strictly between
    -1 and 0, but [timedelta] holds a whole second before zero for it:
    [int()] gives -1, floor division and modulo give hours -1, minutes 59
    and seconds 59, and the result is [-1:59:59,000]. *)
Lemma C10_negative_whole_second :
  let s := Float.round (- 9999996 # 10000000) in
  Float.representable s = true /\
  (- (1) < s)%Q /\ (s < 0)%Q /\
  format_timestamp s = Ok "-1:59:59,000" /\
  ~ (exists mmm : string, format_timestamp s = Ok ("00:00:00," ++ mmm)).
Proof.
  cbv zeta. repeat split; try (vm_compute; reflexivity).
  intros (mmm & H). vm_compute in H. discriminate H.
Qed.

(** C10 (amended).  [format_timestamp] accepts negative inputs: whenever
    the whole number of microseconds [timedelta] holds for the input (the
    integer part exactly, the fractional part scaled by 10^6 in double
    precision, the sum rounded half to even) is a count [us] with
    [-10^6 < us < 0], it returns [00:00:00,mmm], where [mmm] is the
    truncated whole milliseconds of [us + 10^6]; for example
    [format_timestamp(-0.5)] is [00:00:00,500].  Every negative input within
    the range of [timedelta] is formatted without an exception. *)
Theorem C10_format_timestamp_negative :
  (forall s : Q,
     let us := Spec.microsecond_count s in
     - 1000000 < us < 0 ->
     format_timestamp s =
       Ok ("00:00:00," ++ Spec.digits3 ((us + 1000000) / 1000))) /\
  (forall s : Q,
     (s < 0)%Q -> Spec.td_min <= Spec.microsecond_count s ->
     exists out : string, format_timestamp s = Ok out) /\
  format_timestamp (- 1 # 2) = Ok "00:00:00,500".
Proof.
  split; [| split; [| reflexivity]].
  - apply format_timestamp_last_second_before_zero.
  - intros s Hs Hmin.
    assert (Hr : Spec.in_td_range (Spec.microsecond_count s)).
    { split; [exact Hmin |].
      pose proof (microsecond_count_nonpos s (Qlt_le_weak _ _ Hs)) as Hz.
      rewrite td_max_value. lia. }
    rewrite (format_timestamp_us s Hr). eexists. reflexivity.
Qed.

Lemma C10_format_timestamp_negative_witness :
  format_timestamp (Float.round (- 4 # 10000)) = Ok "00:00:00,999" /\
  exists out : string, format_timestamp (- 7200) = Ok out.
Proof.
  destruct C10_format_timestamp_negative as (Hlast & Hany & _).
  split.
  - apply (Hlast (Float.round (- 4 # 10000))). vm_compute. split; reflexivity.
  - apply (Hany (- 7200)%Q).
    + reflexivity.
    + vm_compute. discriminate.
Defined.

(** * The colour converter *)

Lemma lstrip_no_leading (c : ascii) (a : ascii) (s : string) :
  a <> c -> Py.lstrip c (String a s) = String a s.
Proof.
  intros Hac. simpl.
  destruct (Ascii.eqb_spec a c) as [He | _]; [contradiction | reflexivity].
Qed.

Lemma hex_to_ass_color_six (s : string) (r1 r2 g1 g2 b1 b2 : ascii) :
  Py.lstrip "#" s = Spec.six r1 r2 g1 g2 b1 b2 ->
  hex_to_ass_color s = Spec.bgr_token r1 r2 g1 g2 b1 b2.
Proof.
  intros H. unfold hex_to_ass_color. rewrite H. reflexivity.
Qed.

Lemma hex_to_ass_color_fallback (s : string) :
  String.length (Py.lstrip "#" s) <> 6%nat ->
  hex_to_ass_color s = "&H00FFFFFF".
Proof.
  intros H. unfold hex_to_ass_color.
  destruct (Nat.eqb_spec (String.length (Py.lstrip "#" s)) 6) as [He | _];
    [contradiction | reflexivity].
Qed.

(** C6 (as stated, refuted).  After the removal of one leading [#] the
    ASCII input [##12345] is the six characters [#12345], for which the
    statement gives the token [&H004523#1]; the code removes both [#], is
    left with five characters and returns the fallback. *)
Lemma C6_second_hash_is_stripped :
  let s := "##12345" in
  is_ascii s = true /\
  Spec.strip_one_hash s = Spec.six "#" "1" "2" "3" "4" "5" /\
  Spec.bgr_token "#" "1" "2" "3" "4" "5" = "&H004523#1" /\
  hex_to_ass_color s = "&H00FFFFFF" /\
  hex_to_ass_color s <> Spec.bgr_token "#" "1" "2" "3" "4" "5".
Proof.
  cbv zeta. repeat split. intros H. vm_compute in H. discriminate H.
Qed.

(** C6 (amended).  For every input string of ASCII characters that, after
    the removal of all its leading [#] characters, is exactly six characters
    [r1 r2 g1 g2 b1 b2], [hex_to_ass_color] returns [&H00] followed by
    [b1 b2 g1 g2 r1 r2] in upper case, whatever the six characters are; this
    covers six ASCII characters that do not begin with [#], alone or behind
    a single [#].  In particular [#FF0000] gives [&H000000FF] and [#FFFFFF]
    gives [&H00FFFFFF]. *)
Theorem C6_hex_to_ass_color_bgr :
  (forall (s : string) (r1 r2 g1 g2 b1 b2 : ascii),
     is_ascii s = true ->
     Py.lstrip "#" s = Spec.six r1 r2 g1 g2 b1 b2 ->
     hex_to_ass_color s = Spec.bgr_token r1 r2 g1 g2 b1 b2) /\
  (forall r1 r2 g1 g2 b1 b2 : ascii,
     is_ascii (Spec.six r1 r2 g1 g2 b1 b2) = true ->
     r1 <> "#"%char ->
     hex_to_ass_color (Spec.six r1 r2 g1 g2 b1 b2)
       = Spec.bgr_token r1 r2 g1 g2 b1 b2 /\
     hex_to_ass_color (String "#" (Spec.six r1 r2 g1 g2 b1 b2))
       = Spec.bgr_token r1 r2 g1 g2 b1 b2) /\
  hex_to_ass_color "#FF0000" = "&H000000FF" /\
  hex_to_ass_color "#FFFFFF" = "&H00FFFFFF".
Proof.
  split; [intros s r1 r2 g1 g2 b1 b2 _; apply hex_to_ass_color_six |].
  split; [| split; reflexivity].
  intros r1 r2 g1 g2 b1 b2 _ Hr1.
  assert (H : Py.lstrip "#" (Spec.six r1 r2 g1 g2 b1 b2)
              = Spec.six r1 r2 g1 g2 b1 b2)
    by (apply lstrip_no_leading; exact Hr1).
  split; apply hex_to_ass_color_six; [exact H |].
  change (Py.lstrip "#" (String "#" (Spec.six r1 r2 g1 g2 b1 b2)))
    with (Py.lstrip "#" (Spec.six r1 r2 g1 g2 b1 b2)).
  exact H.
Qed.

Lemma C6_hex_to_ass_color_witness :
  hex_to_ass_color "#1a2b3c" = "&H003C2B1A" /\
  hex_to_ass_color "zzTOPs" = "&H00PSTOZZ".
Proof.
  destruct C6_hex_to_ass_color_bgr as (Hany & Hplain & _).
  split.
  - apply (Hany "#1a2b3c" "1"%char "a"%char "2"%char "b"%char "3"%char "c"%char).
    + reflexivity.
    + reflexivity.
  - apply (Hplain "z"%char "z"%char "T"%char "O"%char "P"%char "s"%char).
    + reflexivity.
    + discriminate.
Defined.

(** C7 (as stated, refuted).  After the removal of one leading [#] the
    input [##FF0000] has seven characters, so the statement gives the
    fallback; the code removes both [#] and converts the colour. *)
Lemma C7_second_hash_is_stripped :
  let s := "##FF0000" in
  String.length (Spec.strip_one_hash s) = 7%nat /\
  hex_to_ass_color s = "&H000000FF" /\
  hex_to_ass_color s <> "&H00FFFFFF".
Proof.
  cbv zeta. repeat split. intros H. vm_compute in H. discriminate H.
Qed.

(** C7 (amended).  For every input string whose length after the removal
    of all its leading [#] characters is not exactly 6, [hex_to_ass_color]
    returns the fallback [&H00FFFFFF]; the function is total, so no error is
    raised.  In particular [hex_to_ass_color("#12")] is [&H00FFFFFF]. *)
Theorem C7_hex_to_ass_color_fallback :
  (forall s : string,
     String.length (Py.lstrip "#" s) <> 6%nat ->
     hex_to_ass_color s = "&H00FFFFFF") /\
  hex_to_ass_color "#12" = "&H00FFFFFF".
Proof.
  split; [exact hex_to_ass_color_fallback | reflexivity].
Qed.

Lemma C7_hex_to_ass_color_witness :
  hex_to_ass_color "#FF00000" = "&H00FFFFFF" /\
  hex_to_ass_color "" = "&H00FFFFFF".
Proof.
  destruct C7_hex_to_ass_color_fallback as (Hlen & _).
  split; apply Hlen; simpl; lia.
Defined.

(** * Strings *)

Lemma string_app_assoc (a b c : string) : (a ++ b) ++ c = a ++ (b ++ c).
Proof. induction a as [| x a IH]; simpl; [reflexivity | now rewrite IH]. Qed.

Lemma string_app_nil_r (a : string) : a ++ "" = a.
Proof. induction a as [| x a IH]; simpl; [reflexivity | now rewrite IH]. Qed.

Lemma cat_app (l1 l2 : list string) :
  Spec.cat (l1 ++ l2) = Spec.cat l1 ++ Spec.cat l2.
Proof.
  induction l1 as [| x l1 IH]; simpl; [reflexivity |].
  unfold Spec.cat in *. simpl. now rewrite IH, string_app_assoc.
Qed.

Lemma unlines_app (l1 l2 : list string) :
  Spec.unlines (l1 ++ l2) = Spec.unlines l1 ++ Spec.unlines l2.
Proof. unfold Spec.unlines. now rewrite map_app, cat_app. Qed.

Lemma unlines_cons (l : string) (ls : list string) :
  Spec.unlines (l :: ls) = l ++ Py.LF ++ Spec.unlines ls.
Proof. unfold Spec.unlines, Spec.cat. simpl. now rewrite string_app_assoc. Qed.

Lemma count_app (c : ascii) (a b : string) :
  Spec.count c (a ++ b) = (Spec.count c a + Spec.count c b)%nat.
Proof. induction a as [| x a IH]; simpl; [reflexivity | rewrite IH; lia]. Qed.

Lemma split_not_nil (c : ascii) (s : string) : Spec.split c s <> [].
Proof.
  induction s as [| a s IH]; simpl; [discriminate |].
  destruct (Ascii.eqb a c); [discriminate |].
  destruct (Spec.split c s); [contradiction | discriminate].
Qed.

(** [replace] puts the new text between the pieces the old character
    separates, and changes nothing else. *)
Lemma replace_split (c : ascii) (new s : string) :
  Py.replace c new s = String.concat new (Spec.split c s).
Proof.
  induction s as [| a s IH]; simpl; [reflexivity |].
  pose proof (split_not_nil c s) as Hne.
  destruct (Ascii.eqb a c); rewrite IH.
  - destruct (Spec.split c s) as [| p ps]; [contradiction |]. reflexivity.
  - destruct (Spec.split c s) as [| p ps]; [contradiction |].
    destruct ps; reflexivity.
Qed.

Lemma replace_app (c : ascii) (new a b : string) :
  Py.replace c new (a ++ b) = Py.replace c new a ++ Py.replace c new b.
Proof.
  induction a as [| x a IH]; simpl; [reflexivity |].
  now rewrite IH, string_app_assoc.
Qed.

Lemma replace_absent (c : ascii) (new s : string) :
  Spec.count c s = 0%nat -> Py.replace c new s = s.
Proof.
  induction s as [| a s IH]; simpl; [reflexivity |].
  destruct (Ascii.eqb a c); [discriminate |].
  intros H. simpl in H. now rewrite (IH H).
Qed.

Lemma count_replace (c : ascii) (new s : string) :
  Spec.count c new = 0%nat -> Spec.count c (Py.replace c new s) = 0%nat.
Proof.
  intros Hnew. induction s as [| a s IH]; simpl; [reflexivity |].
  rewrite count_app, IH.
  destruct (Ascii.eqb a c) eqn:Hac; [lia |].
  simpl. rewrite Hac. reflexivity.
Qed.

(** ** Characters of the printed numbers *)

Lemma count_LF_uint (d : Decimal.uint) :
  Spec.count Py.LF_char (NilEmpty.string_of_uint d) = 0%nat.
Proof. induction d; simpl; assumption || reflexivity. Qed.

Lemma count_LF_str (n : Z) : Spec.count Py.LF_char (Py.str n) = 0%nat.
Proof.
  unfold Py.str, NilZero.string_of_int, NilZero.string_of_uint.
  destruct (Z.to_int n) as [d | d]; destruct d;
    try reflexivity; apply count_LF_uint.
Qed.

Lemma count_LF_zeros (k : nat) : Spec.count Py.LF_char (Py.zeros k) = 0%nat.
Proof. induction k; simpl; assumption || reflexivity. Qed.

Lemma count_LF_format_0 (w : nat) (n : Z) :
  Spec.count Py.LF_char (Py.format_0 w n) = 0%nat.
Proof.
  unfold Py.format_0, Py.zero_pad.
  destruct (n <? 0); simpl;
    now rewrite count_app, count_LF_zeros, count_LF_str.
Qed.

Lemma format_timestamp_ass_no_LF (s : Q) (t : string) :
  format_timestamp_ass s = Ok t -> Spec.count Py.LF_char t = 0%nat.
Proof.
  unfold format_timestamp_ass.
  destruct (Datetime.of_seconds s) as [td | e]; simpl; [| discriminate].
  intros H. injection H as <-.
  repeat (rewrite ?count_app, ?count_LF_format_0, ?count_LF_str; simpl).
  reflexivity.
Qed.

(** * The document builders *)

Ltac flatten_strings :=
  unfold Spec.unlines, Spec.cat, Py.LF; simpl;
  repeat (progress (rewrite ?string_app_assoc; simpl));
  rewrite ?string_app_nil_r.

(** ** SRT *)

(** What the loop of [create_srt_content] appends: one block per row, in
    frame order, numbered with the index label of the row plus one. *)
Lemma srt_loop_blocks (rows : DataFrame) (acc : string) :
  srt_loop rows acc =
    bs <- mapM (fun p => Spec.srt_block (fst p + 1) (snd p)) rows ;;
    Ok (acc ++ Spec.cat bs).
Proof.
  revert acc. induction rows as [| [idx row] rows IH]; intros acc.
  - simpl. now rewrite string_app_nil_r.
  - cbn [srt_loop mapM fst snd]. unfold Spec.srt_block.
    destruct (format_timestamp (start row)) as [s | e]; [| reflexivity].
    destruct (format_timestamp (end_ row)) as [s' | e]; [| reflexivity].
    rewrite !bind_Ok, IH.
    destruct (mapM _ rows) as [bs | e]; [| reflexivity].
    rewrite !bind_Ok. f_equal.
    flatten_strings. reflexivity.
Qed.

Lemma create_srt_content_blocks (df : DataFrame) :
  create_srt_content df =
    bs <- mapM (fun p => Spec.srt_block (fst p + 1) (snd p)) df ;;
    Ok (Spec.cat bs).
Proof. unfold create_srt_content. now rewrite srt_loop_blocks. Qed.

Lemma range_index_rows (i : Z) (rows : list Row) :
  map snd (with_range_index i rows) = rows.
Proof.
  revert i. induction rows as [| r rows IH]; intros i; simpl;
    [reflexivity | now rewrite IH].
Qed.

Lemma range_index_blocks (i : Z) (rows : list Row) :
  mapM (fun p => Spec.srt_block (fst p + 1) (snd p)) (with_range_index i rows)
    = Spec.srt_blocks_from i rows.
Proof.
  revert i. induction rows as [| r rows IH]; intros i; simpl;
    [reflexivity | now rewrite IH].
Qed.

(** On a frame with the default index the numbering is the one by
    position. *)
Lemma create_srt_content_range_index (rows : list Row) :
  create_srt_content (frame_of_rows rows) = Spec.srt_document (frame_of_rows rows).
Proof.
  unfold Spec.srt_document, frame_of_rows.
  now rewrite create_srt_content_blocks, range_index_blocks, range_index_rows.
Qed.

(** C1 (the code departs from the statement).  The frame in which the row
    labelled 1 of three rows was dropped keeps the labels 0 and 2: the code
    numbers the second block 3, the statement asks for 2. *)
Theorem C1_srt_number_is_index_label :
  let df := [(0, mk_row 0 1 "a"); (2, mk_row 1 2 "b")] in
  create_srt_content df =
    Ok (Spec.unlines ["1"; "00:00:00,000 --> 00:00:01,000"; "a"; "";
                      "3"; "00:00:01,000 --> 00:00:02,000"; "b"; ""]) /\
  Spec.srt_document df =
    Ok (Spec.unlines ["1"; "00:00:00,000 --> 00:00:01,000"; "a"; "";
                      "2"; "00:00:01,000 --> 00:00:02,000"; "b"; ""]) /\
  create_srt_content df <> Spec.srt_document df.
Proof.
  cbv zeta. repeat split. intros H. vm_compute in H. discriminate H.
Qed.

(** ** ASS *)

Lemma ass_header_lines (st : Style) :
  ass_header st =
    Spec.unlines (Spec.script_info_lines ++ [Spec.style_line st] ++ Spec.events_lines).
Proof.
  unfold ass_header, Spec.style_line, Spec.style_columns.
  flatten_strings. reflexivity.
Qed.

Lemma ass_loop_bodies (rows : DataFrame) (acc : string) :
  ass_loop rows acc =
    bodies <- mapM (fun p => Spec.dialogue_body (snd p)) rows ;;
    Ok (acc ++ Spec.unlines bodies).
Proof.
  revert acc. induction rows as [| [idx row] rows IH]; intros acc.
  - simpl. now rewrite string_app_nil_r.
  - cbn [ass_loop mapM fst snd]. unfold Spec.dialogue_body, Spec.ass_text.
    destruct (format_timestamp_ass (start row)) as [s | e]; [| reflexivity].
    destruct (format_timestamp_ass (end_ row)) as [s' | e]; [| reflexivity].
    rewrite !bind_Ok, IH, <- replace_split.
    destruct (mapM _ rows) as [bs | e]; [| reflexivity].
    rewrite !bind_Ok, unlines_cons. f_equal.
    unfold Py.LF. simpl.
    repeat (progress (rewrite ?string_app_assoc; simpl)). reflexivity.
Qed.

Lemma create_ass_content_document (df : DataFrame) (st : Style) :
  create_ass_content df st = Spec.ass_document df st.
Proof.
  unfold create_ass_content, Spec.ass_document.
  rewrite ass_loop_bodies.
  destruct (mapM _ df) as [bodies | e]; [| reflexivity].
  rewrite !bind_Ok. f_equal.
  rewrite ass_header_lines.
  change ("" ++ Spec.unlines bodies) with (Spec.unlines bodies).
  rewrite !app_assoc.
  now rewrite (unlines_app _ bodies).
Qed.

(** ** Lines of the ASS document *)

Lemma split_line (c : ascii) (l rest : string) :
  Spec.count c l = 0%nat ->
  Spec.split c (l ++ String c rest) = l :: Spec.split c rest.
Proof.
  induction l as [| a l IH]; simpl.
  - intros _. now rewrite Ascii.eqb_refl.
  - destruct (Ascii.eqb a c); [discriminate |].
    intros H. simpl in H. now rewrite (IH H).
Qed.

Lemma split_unlines (ls : list string) :
  Forall (fun l => Spec.count Py.LF_char l = 0%nat) ls ->
  Spec.split Py.LF_char (Spec.unlines ls) = (ls ++ [""])%list.
Proof.
  induction 1 as [| l ls Hl _ IH]; [reflexivity |].
  rewrite unlines_cons. unfold Py.LF. simpl "++".
  now rewrite (split_line _ _ _ Hl), IH.
Qed.

Lemma mapM_Forall {A B : Type} (f : A -> result B) (P : B -> Prop)
      (l : list A) (bs : list B) :
  (forall a b, f a = Ok b -> P b) -> mapM f l = Ok bs -> Forall P bs.
Proof.
  intros Hf. revert bs. induction l as [| a l IH]; simpl; intros bs H.
  - injection H as <-. constructor.
  - destruct (f a) as [b | e] eqn:Hb; [| discriminate H].
    destruct (mapM f l) as [bs' | e]; [| discriminate H].
    simpl in H. injection H as <-.
    constructor; [exact (Hf a b Hb) | apply IH; reflexivity].
Qed.

Lemma mapM_length {A B : Type} (f : A -> result B) (l : list A) (bs : list B) :
  mapM f l = Ok bs -> List.length bs = List.length l.
Proof.
  revert bs. induction l as [| a l IH]; simpl; intros bs H.
  - injection H as <-. reflexivity.
  - destruct (f a) as [b | e]; [| discriminate H].
    destruct (mapM f l) as [bs' | e]; [| discriminate H].
    simpl in H. injection H as <-. simpl. now rewrite (IH bs').
Qed.

Lemma ass_text_replace (t : string) :
  Spec.ass_text t = Py.replace Py.LF_char "\N" t.
Proof. unfold Spec.ass_text. now rewrite replace_split. Qed.

Lemma ass_text_no_LF (t : string) :
  Spec.count Py.LF_char (Spec.ass_text t) = 0%nat.
Proof. rewrite ass_text_replace. now apply count_replace. Qed.

(** The shape of a Dialogue line: the fixed fields, the two timestamps and
    the text, none of which holds a line feed. *)
Lemma dialogue_body_shape (row : Row) (body : string) :
  Spec.dialogue_body row = Ok body ->
  exists s e : string,
    format_timestamp_ass (start row) = Ok s /\
    format_timestamp_ass (end_ row) = Ok e /\
    body = "Dialogue: 0," ++ s ++ "," ++ e ++ ",Default,,0,0,0,,"
             ++ Spec.ass_text (text row) /\
    Spec.count Py.LF_char body = 0%nat.
Proof.
  unfold Spec.dialogue_body. intros H.
  destruct (format_timestamp_ass (start row)) as [s | x] eqn:Hs; [| discriminate H].
  destruct (format_timestamp_ass (end_ row)) as [e | x] eqn:He; [| discriminate H].
  simpl in H. injection H as <-.
  exists s, e.
  split; [reflexivity |]. split; [reflexivity |]. split.
  - simpl. repeat (progress (rewrite ?string_app_assoc; simpl)). reflexivity.
  - pose proof (format_timestamp_ass_no_LF _ _ Hs) as Hs0.
    pose proof (format_timestamp_ass_no_LF _ _ He) as He0.
    simpl.
    repeat (rewrite ?count_app, ?ass_text_no_LF, ?Hs0, ?He0; simpl).
    reflexivity.
Qed.

Lemma style_line_no_LF (st : Style) :
  Spec.count Py.LF_char (font_name st) = 0%nat ->
  Spec.count Py.LF_char (primary_color st) = 0%nat ->
  Spec.count Py.LF_char (outline_color st) = 0%nat ->
  Spec.count Py.LF_char (Spec.style_line st) = 0%nat.
Proof.
  intros Hf Hp Ho. unfold Spec.style_line, Spec.style_columns. simpl.
  repeat (rewrite ?count_app, ?count_LF_str, ?Hf, ?Hp, ?Ho; simpl).
  reflexivity.
Qed.

Lemma dialogue_is_no_style (b : string) :
  Spec.starts_with "Dialogue: 0," b = true -> Spec.starts_with "Style:" b = false.
Proof.
  destruct b as [| c b]; [discriminate |].
  cbn [Spec.starts_with].
  destruct (Ascii.eqb_spec "D" c) as [<- | Hc]; intros H;
    [reflexivity | discriminate H].
Qed.

Lemma no_style_among_bodies (bodies : list string) :
  Forall (fun b => Spec.starts_with "Dialogue: 0," b = true) bodies ->
  Spec.lines_with_prefix "Style:" bodies = [].
Proof.
  induction 1 as [| b bodies Hb _ IH]; [reflexivity |].
  unfold Spec.lines_with_prefix in *. cbn [filter].
  now rewrite (dialogue_is_no_style b Hb), IH.
Qed.

Lemma bodies_are_dialogue_lines (df : DataFrame) (bodies : list string) :
  mapM (fun p => Spec.dialogue_body (snd p)) df = Ok bodies ->
  Forall (fun b => Spec.count Py.LF_char b = 0%nat) bodies /\
  Forall (fun b => Spec.starts_with "Dialogue: 0," b = true) bodies /\
  List.length bodies = List.length df.
Proof.
  intros H. split; [| split].
  - apply (mapM_Forall _ _ _ _ (fun p b Hb =>
             match dialogue_body_shape (snd p) b Hb with
             | ex_intro _ _ (ex_intro _ _ (conj _ (conj _ (conj _ Hc)))) => Hc
             end) H).
  - refine (mapM_Forall _ _ _ _ _ H).
    intros p b Hb.
    destruct (dialogue_body_shape (snd p) b Hb) as (s & e & _ & _ & -> & _).
    reflexivity.
  - exact (mapM_length _ _ _ H).
Qed.

Lemma starts_with_app (p q s : string) :
  Spec.starts_with (p ++ q) s = true -> Spec.starts_with p s = true.
Proof.
  revert s. induction p as [| a p IH]; intros s; [reflexivity |].
  destruct s as [| b s]; [discriminate |].
  cbn [append Spec.starts_with].
  destruct (Ascii.eqb a b); [apply IH | discriminate].
Qed.

Lemma only_bodies_are_dialogue (bodies : list string) :
  Forall (fun b => Spec.starts_with "Dialogue: 0," b = true) bodies ->
  Spec.lines_with_prefix "Dialogue:" bodies = bodies.
Proof.
  induction 1 as [| b bodies Hb _ IH]; [reflexivity |].
  unfold Spec.lines_with_prefix in *. cbn [filter].
  now rewrite (starts_with_app "Dialogue:" " 0," b Hb), IH.
Qed.

Lemma fixed_lines_prefixes :
  Spec.lines_with_prefix "Style:" Spec.script_info_lines = [] /\
  Spec.lines_with_prefix "Style:" Spec.events_lines = [] /\
  Spec.lines_with_prefix "Dialogue:" Spec.script_info_lines = [] /\
  Spec.lines_with_prefix "Dialogue:" Spec.events_lines = [].
Proof. repeat split. Qed.

Lemma style_line_prefixes (st : Style) :
  Spec.lines_with_prefix "Style:" [Spec.style_line st] = [Spec.style_line st] /\
  Spec.lines_with_prefix "Dialogue:" [Spec.style_line st] = [].
Proof. split; reflexivity. Qed.

(** C2 (as stated, refuted).  In the Dialogue line of a one-row frame the
    name and effect fields are empty, but the three margin fields hold 0.
    And a font name is copied as it is: with the font name
    [A], newline, [Style: B] the output has two lines that begin with
    [Style:]. *)
Lemma C2_margins_are_zero_and_font_name_can_add_lines :
  let df := [(0, mk_row 0 1 "a")] in
  (create_ass_content df default_style =
     Ok (Spec.unlines
           (Spec.script_info_lines ++ [Spec.style_line default_style]
              ++ Spec.events_lines
              ++ ["Dialogue: 0,0:00:00.00,0:00:01.00,Default,,0,0,0,,a"])) /\
   Spec.ass_document_empty_margins df default_style =
     Ok (Spec.unlines
           (Spec.script_info_lines ++ [Spec.style_line default_style]
              ++ Spec.events_lines
              ++ ["Dialogue: 0,0:00:00.00,0:00:01.00,Default,,,,,,a"])) /\
   create_ass_content df default_style
     <> Spec.ass_document_empty_margins df default_style) /\
  (let st := mk_style ("A" ++ Py.LF ++ "Style: B") 40 "&H00FFFFFF" "&H00000000"
               2 0 2 10 in
   exists out : string,
     create_ass_content df st = Ok out /\
     Spec.lines_with_prefix "Style:" (Spec.split Py.LF_char out) =
       [ "Style: Default,A";
         "Style: B,40,&H00FFFFFF,&H000000FF,&H00000000,&H00000000,0,0,0,0,100,100,0,0,1,2,0,2,10,10,10,1" ]).
Proof.
  cbv zeta. split.
  - repeat split. intros H. vm_compute in H. discriminate H.
  - eexists. split; [vm_compute; reflexivity |]. vm_compute. reflexivity.
Qed.

(** C2 (amended).  For every frame and style, [create_ass_content] returns
    the text made of the fixed header lines, the text [Style: Default,]
    followed by the columns font name, font size, primary colour, the fixed
    secondary colour, outline colour, the fixed back colour, bold, italic,
    underline and strike-out 0, scales 100 and 100, spacing 0, angle 0,
    border style 1, outline width, shadow depth, alignment, margins left and
    right 10, vertical margin, encoding 1, then the Events header and, per
    row in frame order, the text [Dialogue: ] with layer 0, the ASS start
    and end, the style name Default, an empty name field, the three margin
    fields 0, an empty effect field and the text, each of these followed by
    a newline; a timestamp that cannot be formatted raises its exception
    instead.  For a style whose font name, primary colour and outline colour
    contain no newline character, the lines of the output are exactly those
    texts, so that exactly one line begins with [Style:] and exactly one
    line per row begins with [Dialogue:]. *)
Theorem C2_create_ass_content_shape :
  forall (df : DataFrame) (st : Style),
  create_ass_content df st = Spec.ass_document df st /\
  (forall out : string,
     create_ass_content df st = Ok out ->
     Spec.count Py.LF_char (font_name st) = 0%nat ->
     Spec.count Py.LF_char (primary_color st) = 0%nat ->
     Spec.count Py.LF_char (outline_color st) = 0%nat ->
     exists bodies : list string,
       mapM (fun p => Spec.dialogue_body (snd p)) df = Ok bodies /\
       Spec.split Py.LF_char out =
         (Spec.script_info_lines ++ [Spec.style_line st] ++ Spec.events_lines
            ++ bodies ++ [""])%list /\
       Spec.lines_with_prefix "Style:" (Spec.split Py.LF_char out)
         = [Spec.style_line st] /\
       Spec.lines_with_prefix "Dialogue:" (Spec.split Py.LF_char out) = bodies /\
       List.length bodies = List.length df).
Proof.
  intros df st.
  split; [apply create_ass_content_document |].
  intros out Hout Hf Hp Ho.
  rewrite create_ass_content_document in Hout.
  unfold Spec.ass_document in Hout.
  destruct (mapM _ df) as [bodies | e] eqn:Hb; [| discriminate Hout].
  rewrite bind_Ok in Hout.
  assert (Hlines : out = Spec.unlines
                           (Spec.script_info_lines ++ [Spec.style_line st]
                              ++ Spec.events_lines ++ bodies))
    by congruence.
  clear Hout. subst out.
  exists bodies. split; [reflexivity |].
  destruct (bodies_are_dialogue_lines df bodies Hb) as (Hlf & Hdl & Hlen).
  destruct fixed_lines_prefixes as (Hs1 & Hs2 & Hd1 & Hd2).
  destruct (style_line_prefixes st) as (Hs3 & Hd3).
  pose proof (no_style_among_bodies bodies Hdl) as Hs4.
  pose proof (only_bodies_are_dialogue bodies Hdl) as Hd4.
  rewrite split_unlines.
  - split; [now rewrite <- !app_assoc |].
    unfold Spec.lines_with_prefix in *. rewrite !filter_app.
    rewrite Hs1, Hs2, Hs3, Hs4, Hd1, Hd2, Hd3, Hd4.
    split; [reflexivity |].
    split; [| exact Hlen].
    cbn [filter Spec.starts_with app]. now rewrite app_nil_r.
  - repeat (apply Forall_app; split); try exact Hlf.
    + unfold Spec.script_info_lines. repeat constructor.
    + constructor; [apply style_line_no_LF; assumption | constructor].
    + unfold Spec.events_lines. repeat constructor.
Qed.

Lemma C2_create_ass_content_witness :
  let df := frame_of_rows [mk_row 0 1 "a"; mk_row 1 2 "b"] in
  let st := mk_style "X" 40 "&H00FFFFFF" "&H00000000" 2 0 2 10 in
  exists out : string,
    create_ass_content df st = Ok out /\
    exists bodies : list string,
      mapM (fun p => Spec.dialogue_body (snd p)) df = Ok bodies /\
      Spec.split Py.LF_char out =
        (Spec.script_info_lines ++ [Spec.style_line st] ++ Spec.events_lines
           ++ bodies ++ [""])%list /\
      Spec.lines_with_prefix "Style:" (Spec.split Py.LF_char out)
        = [Spec.style_line st] /\
      Spec.lines_with_prefix "Dialogue:" (Spec.split Py.LF_char out) = bodies /\
      List.length bodies = List.length df.
Proof.
  intros df st.
  exists (Spec.unlines
            (Spec.script_info_lines ++ [Spec.style_line st] ++ Spec.events_lines
               ++ ["Dialogue: 0,0:00:00.00,0:00:01.00,Default,,0,0,0,,a";
                   "Dialogue: 0,0:00:01.00,0:00:02.00,Default,,0,0,0,,b"])).
  assert (Hout : create_ass_content df st =
                 Ok (Spec.unlines
                       (Spec.script_info_lines ++ [Spec.style_line st]
                          ++ Spec.events_lines
                          ++ ["Dialogue: 0,0:00:00.00,0:00:01.00,Default,,0,0,0,,a";
                              "Dialogue: 0,0:00:01.00,0:00:02.00,Default,,0,0,0,,b"])))
    by (vm_compute; reflexivity).
  split; [exact Hout |].
  exact (proj2 (C2_create_ass_content_shape df st) _ Hout
           eq_refl eq_refl eq_refl).
Defined.

Example style_line_default :
  Spec.style_line default_style =
    "Style: Default,MS Gothic,40,&H00FFFFFF,&H000000FF,&H00000000,&H00000000,0,0,0,0,100,100,0,0,1,2,0,2,10,10,10,1".
Proof. reflexivity. Qed.

(** C8.  Every Dialogue line of the ASS output ends, before its line
    terminator, with the text of its row in which each newline character is
    replaced by the two characters backslash and N; the line holds no
    newline character before the terminator; and the replacement changes
    nothing else: it commutes with concatenation around a newline and is
    the identity on a text without newlines. *)
Theorem C8_newlines_become_line_breaks :
  (forall (df : DataFrame) (st : Style),
     create_ass_content df st =
       (bodies <- mapM (fun p => Spec.dialogue_body (snd p)) df ;;
        Ok (ass_header st ++ Spec.unlines bodies))) /\
  (forall (row : Row) (body : string),
     Spec.dialogue_body row = Ok body ->
     Spec.count Py.LF_char body = 0%nat /\
     exists fields : string, body = fields ++ Spec.ass_text (text row)) /\
  (forall t : string, Spec.ass_text t = Py.replace Py.LF_char "\N" t) /\
  (forall a b : string,
     Spec.ass_text (a ++ Py.LF ++ b) = Spec.ass_text a ++ "\N" ++ Spec.ass_text b) /\
  (forall t : string, Spec.count Py.LF_char t = 0%nat -> Spec.ass_text t = t) /\
  (forall t : string, Spec.count Py.LF_char (Spec.ass_text t) = 0%nat).
Proof.
  split; [| split; [| split; [| split; [| split]]]].
  - intros df st. unfold create_ass_content. rewrite ass_loop_bodies.
    destruct (mapM _ df) as [bodies | e]; reflexivity.
  - intros row body H.
    destruct (dialogue_body_shape row body H) as (s & e & _ & _ & Hbody & Hlf).
    split; [exact Hlf |].
    exists ("Dialogue: 0," ++ s ++ "," ++ e ++ ",Default,,0,0,0,,").
    rewrite Hbody.
    repeat (progress (rewrite ?string_app_assoc; simpl)). reflexivity.
  - exact ass_text_replace.
  - intros a b. rewrite !ass_text_replace, replace_app. reflexivity.
  - intros t Ht. rewrite ass_text_replace. now apply replace_absent.
  - exact ass_text_no_LF.
Qed.

Lemma C8_newlines_witness :
  let row := mk_row 0 1 ("x" ++ Py.LF ++ "y" ++ Py.LF ++ "z") in
  let body := "Dialogue: 0,0:00:00.00,0:00:01.00,Default,,0,0,0,,x\Ny\Nz" in
  Spec.dialogue_body row = Ok body /\
  (Spec.count Py.LF_char body = 0%nat /\
   exists fields : string, body = fields ++ Spec.ass_text (text row)) /\
  Spec.ass_text "a, b {c} \n" = "a, b {c} \n".
Proof.
  intros row body.
  destruct C8_newlines_become_line_breaks as (_ & Hbody & _ & _ & Hplain & _).
  assert (H : Spec.dialogue_body row = Ok body) by reflexivity.
  split; [exact H |].
  split; [exact (Hbody row body H) |].
  apply Hplain. reflexivity.
Defined.

(** ** State of the builders *)

(** The only state of either loop is its local accumulator, which is only
    appended to: the text a loop adds does not depend on what was
    accumulated before, and each call starts from the empty string. *)
Lemma srt_loop_accumulates (rows : DataFrame) (acc : string) :
  srt_loop rows acc = (out <- create_srt_content rows ;; Ok (acc ++ out)).
Proof.
  unfold create_srt_content. rewrite !srt_loop_blocks.
  destruct (mapM _ rows) as [bs | e]; reflexivity.
Qed.

Lemma ass_loop_accumulates (rows : DataFrame) (acc : string) :
  ass_loop rows acc = (out <- ass_loop rows "" ;; Ok (acc ++ out)).
Proof.
  rewrite !ass_loop_bodies.
  destruct (mapM _ rows) as [bs | e]; reflexivity.
Qed.






Example second_call_in_the_store_of_the_first :
  let m := Call.mk_store (frame_of_rows [mk_row 0 1 "a"]) "left over" "x" "y" in
  fst (Call.create_srt_content m) = Ok ("1" ++ Py.LF ++ "00:00:00,000 --> 00:00:01,000"
                                          ++ Py.LF ++ "a" ++ Py.LF ++ Py.LF) /\
  Call.srt_content (snd (Call.create_srt_content m))
    = "1" ++ Py.LF ++ "00:00:00,000 --> 00:00:01,000" ++ Py.LF ++ "a" ++ Py.LF ++ Py.LF /\
  fst (Call.create_srt_content (snd (Call.create_srt_content m)))
    = fst (Call.create_srt_content m).
Proof. cbv zeta. repeat split; vm_compute; reflexivity. Qed.

(** * Further properties of the timestamp formatters *)

(** ** Reading a printed number back *)

Lemma str_read_back (n : Z) :
  NilZero.int_of_string (Py.str n) = Some (Z.to_int n).
Proof.
  unfold Py.str. apply NilZero.isi.
  - destruct n as [| p | p]; simpl; try discriminate.
    intros H. injection H as H. exact (DecimalPos.Unsigned.to_uint_nonnil p H).
  - destruct n as [| p | p]; simpl; try discriminate.
    intros H. injection H as H. exact (DecimalPos.Unsigned.to_uint_nonnil p H).
Qed.

Lemma str_inj (a b : Z) : Py.str a = Py.str b -> a = b.
Proof.
  intros H. apply DecimalZ.to_int_inj.
  pose proof (str_read_back a) as Ha. rewrite H, str_read_back in Ha.
  now injection Ha.
Qed.

Lemma str_length_ge_3 (h : Z) : 100 <= h -> (3 <= String.length (Py.str h))%nat.
Proof.
  intros Hh. destruct h as [| p | p]; try lia.
  unfold Py.str. simpl.
  pose proof (DecimalPos.Unsigned.of_to p) as Hp.
  destruct (Pos.to_uint p) as [| d | d | d | d | d | d | d | d | d | d];
    simpl in Hp; try discriminate Hp;
    (destruct d as [| d | d | d | d | d | d | d | d | d | d];
     [simpl in Hp; try discriminate Hp; injection Hp as Hp; lia | ..]);
    (destruct d; simpl in *; try lia; injection Hp as Hp; lia).
Qed.

Lemma str_nonempty (h : Z) : (1 <= String.length (Py.str h))%nat.
Proof.
  unfold Py.str. destruct h as [| p | p]; simpl; try lia;
    destruct (Pos.to_uint p); simpl; lia.
Qed.

(** ** Fields of fixed width *)

Lemma digit_inj (a b : Z) :
  0 <= a < 10 -> 0 <= b < 10 -> Spec.digit a = Spec.digit b -> a = b.
Proof.
  intros Ha Hb H. unfold Spec.digit in H.
  apply (f_equal nat_of_ascii) in H.
  rewrite !nat_ascii_embedding in H by lia. lia.
Qed.

Lemma digits2_inj (a b : Z) :
  0 <= a < 100 -> 0 <= b < 100 -> Spec.digits2 a = Spec.digits2 b -> a = b.
Proof.
  intros Ha Hb H. unfold Spec.digits2 in H.
  injection H as H1 H2.
  apply digit_inj in H1; [| Z.to_euclidean_division_equations; lia ..].
  apply digit_inj in H2; [| Z.to_euclidean_division_equations; lia ..].
  Z.to_euclidean_division_equations. lia.
Qed.

Lemma digits3_inj (a b : Z) :
  0 <= a < 1000 -> 0 <= b < 1000 -> Spec.digits3 a = Spec.digits3 b -> a = b.
Proof.
  intros Ha Hb H. unfold Spec.digits3, Spec.digits2 in H.
  injection H as H1 H2 H3.
  apply digit_inj in H1; [| Z.to_euclidean_division_equations; lia ..].
  apply digit_inj in H2; [| Z.to_euclidean_division_equations; lia ..].
  apply digit_inj in H3; [| Z.to_euclidean_division_equations; lia ..].
  Z.to_euclidean_division_equations. lia.
Qed.

Lemma string_length_app (a b : string) :
  String.length (a ++ b) = (String.length a + String.length b)%nat.
Proof. induction a as [| x a IH]; simpl; [reflexivity | now rewrite IH]. Qed.

(** Two texts with tails of equal length are equal only piece by piece. *)
Lemma string_app_inj_tail (a b t t' : string) :
  String.length t = String.length t' -> a ++ t = b ++ t' -> a = b /\ t = t'.
Proof.
  intros Hlen. revert b.
  induction a as [| x a IH]; intros [| y b] H; simpl in H.
  - split; [reflexivity | exact H].
  - apply (f_equal String.length) in H. simpl in H.
    rewrite string_length_app in H. lia.
  - apply (f_equal String.length) in H. simpl in H.
    rewrite string_length_app in H. lia.
  - injection H as -> H. destruct (IH b H) as [-> ->]. split; reflexivity.
Qed.

Lemma hours_field_digits2 (h : Z) :
  0 <= h < 100 -> Spec.hours_field h = Spec.digits2 h.
Proof.
  intros Hh. rewrite <- format_0_2_hours by lia.
  apply format_0_2_digits2. exact Hh.
Qed.

Lemma hours_field_length (h : Z) :
  0 <= h ->
  String.length (Spec.hours_field h) = 2%nat /\ h < 100 \/
  (3 <= String.length (Spec.hours_field h))%nat /\ 100 <= h.
Proof.
  intros Hh. destruct (Z.lt_ge_cases h 100) as [Hlt | Hge].
  - left. split; [| exact Hlt]. now rewrite hours_field_digits2 by lia.
  - right. split; [| exact Hge]. unfold Spec.hours_field.
    destruct (Z.ltb_spec h 10); [lia |]. now apply str_length_ge_3.
Qed.

Lemma hours_field_inj (a b : Z) :
  0 <= a -> 0 <= b -> Spec.hours_field a = Spec.hours_field b -> a = b.
Proof.
  intros Ha Hb H.
  pose proof (f_equal String.length H) as Hlen.
  destruct (hours_field_length a Ha) as [[La Ha'] | [La Ha']],
           (hours_field_length b Hb) as [[Lb Hb'] | [Lb Hb']]; try lia.
  - rewrite !hours_field_digits2 in H by lia. apply digits2_inj; auto; lia.
  - unfold Spec.hours_field in H.
    destruct (Z.ltb_spec a 10); [lia |]. destruct (Z.ltb_spec b 10); [lia |].
    now apply str_inj.
Qed.

(** ** The timestamp determines its fields *)

Lemma clock_tail_inj (m1 s1 m2 s2 : Z) (sep : ascii) (f1 f2 : string) :
  0 <= m1 < 60 -> 0 <= s1 < 60 -> 0 <= m2 < 60 -> 0 <= s2 < 60 ->
  ":" ++ Spec.digits2 m1 ++ ":" ++ Spec.digits2 s1 ++ String sep f1
    = ":" ++ Spec.digits2 m2 ++ ":" ++ Spec.digits2 s2 ++ String sep f2 ->
  m1 = m2 /\ s1 = s2 /\ f1 = f2.
Proof.
  intros Hm1 Hs1 Hm2 Hs2 H. simpl in H.
  injection H as Ea Eb Ec Ed Ef.
  split; [| split; [| exact Ef]].
  - apply digits2_inj; [lia | lia |]. unfold Spec.digits2. now rewrite Ea, Eb.
  - apply digits2_inj; [lia | lia |]. unfold Spec.digits2. now rewrite Ec, Ed.
Qed.

Lemma whole_seconds_of_fields (T1 T2 : Z) :
  T1 / 3600 = T2 / 3600 -> T1 / 60 mod 60 = T2 / 60 mod 60 ->
  T1 mod 60 = T2 mod 60 -> T1 = T2.
Proof. intros H1 H2 H3. Z.to_euclidean_division_equations. lia. Qed.

Lemma srt_timestamp_inj (T1 ms1 T2 ms2 : Z) :
  0 <= T1 -> 0 <= T2 -> 0 <= ms1 < 1000 -> 0 <= ms2 < 1000 ->
  Spec.srt_timestamp T1 ms1 = Spec.srt_timestamp T2 ms2 ->
  T1 = T2 /\ ms1 = ms2.
Proof.
  intros HT1 HT2 Hms1 Hms2 H. unfold Spec.srt_timestamp in H.
  destruct (clock_fields T1 HT1) as (Hh1 & _ & Hm1 & Hs1).
  destruct (clock_fields T2 HT2) as (Hh2 & _ & Hm2 & Hs2).
  apply string_app_inj_tail in H; [| reflexivity].
  destruct H as [Hh Ht].
  apply hours_field_inj in Hh; [| assumption ..].
  apply clock_tail_inj in Ht; [| assumption ..].
  destruct Ht as (Hm & Hs & Hf).
  split; [now apply whole_seconds_of_fields |].
  now apply digits3_inj.
Qed.

Lemma ass_timestamp_inj (T1 cs1 T2 cs2 : Z) :
  0 <= T1 -> 0 <= T2 -> 0 <= cs1 < 100 -> 0 <= cs2 < 100 ->
  Spec.ass_timestamp T1 cs1 = Spec.ass_timestamp T2 cs2 ->
  T1 = T2 /\ cs1 = cs2.
Proof.
  intros HT1 HT2 Hcs1 Hcs2 H. unfold Spec.ass_timestamp in H.
  destruct (clock_fields T1 HT1) as (Hh1 & _ & Hm1 & Hs1).
  destruct (clock_fields T2 HT2) as (Hh2 & _ & Hm2 & Hs2).
  apply string_app_inj_tail in H; [| reflexivity].
  destruct H as [Hh Ht].
  apply str_inj in Hh.
  apply clock_tail_inj in Ht; [| assumption ..].
  destruct Ht as (Hm & Hs & Hf).
  split; [now apply whole_seconds_of_fields |].
  now apply digits2_inj.
Qed.

(** X3.  Two non-negative inputs within the range of [timedelta] get the
    same SRT timestamp exactly when the microsecond counts [timedelta] holds
    for them (the fractional part scaled in double precision, the sum
    rounded half to even) have the same whole milliseconds: the timestamp
    loses nothing of the millisecond count and shows nothing below it. *)
Theorem X3_srt_timestamp_identifies_milliseconds :
  forall s1 s2 : Q,
  (0 <= s1)%Q -> (0 <= s2)%Q ->
  Spec.microsecond_count s1 <= Spec.td_max ->
  Spec.microsecond_count s2 <= Spec.td_max ->
  (format_timestamp s1 = format_timestamp s2 <->
   Spec.microsecond_count s1 / 1000 = Spec.microsecond_count s2 / 1000).
Proof.
  intros s1 s2 H1 H2 M1 M2.
  pose proof (microsecond_count_nonneg s1 H1) as N1.
  pose proof (microsecond_count_nonneg s2 H2) as N2.
  rewrite (format_timestamp_nonneg s1 N1 M1), (format_timestamp_nonneg s2 N2 M2).
  set (u1 := Spec.microsecond_count s1) in *.
  set (u2 := Spec.microsecond_count s2) in *.
  split.
  - intros H. injection H as H.
    apply srt_timestamp_inj in H.
    + destruct H as [HT Hms]. Z.to_euclidean_division_equations. lia.
    + apply Z.div_pos; lia.
    + apply Z.div_pos; lia.
    + Z.to_euclidean_division_equations. lia.
    + Z.to_euclidean_division_equations. lia.
  - intros H.
    assert (HT : u1 / 1000000 = u2 / 1000000).
    { change 1000000 with (1000 * 1000).
      rewrite <- !Z.div_div by lia. now rewrite H. }
    assert (Hms : u1 mod 1000000 / 1000 = u2 mod 1000000 / 1000).
    { Z.to_euclidean_division_equations. lia. }
    now rewrite HT, Hms.
Qed.

Lemma X3_srt_timestamp_witness :
  format_timestamp (Float.round (12345678 # 10000000))
    = format_timestamp (Float.round (1234 # 1000)) /\
  Spec.microsecond_count (15 # 10) / 1000
    = Spec.microsecond_count (Float.round (15004 # 10000)) / 1000 /\
  format_timestamp (Float.round (9995 # 10000000))
    <> format_timestamp (Float.round (9 # 10000)).
Proof.
  assert (Hpos : forall q : Q, Qle_bool 0 q = true -> (0 <= q)%Q)
    by (intros q; apply Qle_bool_iff).
  split; [| split].
  - refine (proj2 (X3_srt_timestamp_identifies_milliseconds
                     (Float.round (12345678 # 10000000)) (Float.round (1234 # 1000))
                     (Hpos _ _) (Hpos _ _) _ _) _);
      try (vm_compute; reflexivity); vm_compute; discriminate.
  - refine (proj1 (X3_srt_timestamp_identifies_milliseconds
                     (15 # 10) (Float.round (15004 # 10000))
                     (Hpos _ _) (Hpos _ _) _ _) _);
      try (vm_compute; reflexivity); vm_compute; discriminate.
  - intros H.
    assert (E : Spec.microsecond_count (Float.round (9995 # 10000000)) / 1000
                = Spec.microsecond_count (Float.round (9 # 10000)) / 1000).
    { refine (proj1 (X3_srt_timestamp_identifies_milliseconds
                       (Float.round (9995 # 10000000)) (Float.round (9 # 10000))
                       (Hpos _ _) (Hpos _ _) _ _) H);
        try (vm_compute; reflexivity); vm_compute; discriminate. }
    vm_compute in E. discriminate E.
Defined.

(** X4.  Two non-negative inputs within the range of [timedelta] get the
    same ASS timestamp exactly when the microsecond counts [timedelta] holds
    for them (the fractional part scaled in double precision, the sum
    rounded half to even) have the same whole hundredths of a second. *)
Theorem X4_ass_timestamp_identifies_centiseconds :
  forall s1 s2 : Q,
  (0 <= s1)%Q -> (0 <= s2)%Q ->
  Spec.microsecond_count s1 <= Spec.td_max ->
  Spec.microsecond_count s2 <= Spec.td_max ->
  (format_timestamp_ass s1 = format_timestamp_ass s2 <->
   Spec.microsecond_count s1 / 10000 = Spec.microsecond_count s2 / 10000).
Proof.
  intros s1 s2 H1 H2 M1 M2.
  pose proof (microsecond_count_nonneg s1 H1) as N1.
  pose proof (microsecond_count_nonneg s2 H2) as N2.
  rewrite (format_timestamp_ass_nonneg s1 N1 M1),
    (format_timestamp_ass_nonneg s2 N2 M2).
  set (u1 := Spec.microsecond_count s1) in *.
  set (u2 := Spec.microsecond_count s2) in *.
  split.
  - intros H. injection H as H.
    apply ass_timestamp_inj in H.
    + destruct H as [HT Hcs]. Z.to_euclidean_division_equations. lia.
    + apply Z.div_pos; lia.
    + apply Z.div_pos; lia.
    + Z.to_euclidean_division_equations. lia.
    + Z.to_euclidean_division_equations. lia.
  - intros H.
    assert (HT : u1 / 1000000 = u2 / 1000000).
    { change 1000000 with (10000 * 100).
      rewrite <- !Z.div_div by lia. now rewrite H. }
    assert (Hcs : u1 mod 1000000 / 10000 = u2 mod 1000000 / 10000).
    { Z.to_euclidean_division_equations. lia. }
    now rewrite HT, Hcs.
Qed.

Lemma X4_ass_timestamp_witness :
  format_timestamp_ass (Float.round (1239 # 1000))
    = format_timestamp_ass (Float.round (123 # 100)) /\
  Spec.microsecond_count (15 # 10) / 10000
    = Spec.microsecond_count (Float.round (1504 # 1000)) / 10000 /\
  format_timestamp_ass (Float.round (99995 # 10000000))
    <> format_timestamp_ass (Float.round (9 # 1000)).
Proof.
  assert (Hpos : forall q : Q, Qle_bool 0 q = true -> (0 <= q)%Q)
    by (intros q; apply Qle_bool_iff).
  split; [| split].
  - refine (proj2 (X4_ass_timestamp_identifies_centiseconds
                     (Float.round (1239 # 1000)) (Float.round (123 # 100))
                     (Hpos _ _) (Hpos _ _) _ _) _);
      try (vm_compute; reflexivity); vm_compute; discriminate.
  - refine (proj1 (X4_ass_timestamp_identifies_centiseconds
                     (15 # 10) (Float.round (1504 # 1000))
                     (Hpos _ _) (Hpos _ _) _ _) _);
      try (vm_compute; reflexivity); vm_compute; discriminate.
  - intros H.
    assert (E : Spec.microsecond_count (Float.round (99995 # 10000000)) / 10000
                = Spec.microsecond_count (Float.round (9 # 1000)) / 10000).
    { refine (proj1 (X4_ass_timestamp_identifies_centiseconds
                       (Float.round (99995 # 10000000)) (Float.round (9 # 1000))
                       (Hpos _ _) (Hpos _ _) _ _) H);
        try (vm_compute; reflexivity); vm_compute; discriminate. }
    vm_compute in E. discriminate E.
Defined.

(** ** Outside the range of [timedelta], and before zero *)

Lemma td_min_value : Spec.td_min = - 86399999913600000000.
Proof. reflexivity. Qed.

(** X1.  On a finite input both formatters raise [OverflowError] exactly
    when the microsecond count [timedelta] holds for the input is outside
    its range, from -999999999 days up to, but excluding, 1000000000 days;
    on every other finite input both return a string. *)
Theorem X1_formatters_raise_outside_timedelta_range :
  forall s : Q,
  let us := Spec.microsecond_count s in
  ((us < - 86399999913600000000 \/ 86399999999999999999 < us) ->
   format_timestamp s = Raise OverflowError /\
   format_timestamp_ass s = Raise OverflowError) /\
  (- 86399999913600000000 <= us <= 86399999999999999999 ->
   exists srt ass : string,
     format_timestamp s = Ok srt /\ format_timestamp_ass s = Ok ass).
Proof.
  intros s us. split.
  - intros H. apply format_timestamp_Raise.
    unfold Spec.in_td_range. rewrite td_min_value, td_max_value. fold us. lia.
  - intros H.
    assert (Hr : Spec.in_td_range us)
      by (unfold Spec.in_td_range; rewrite td_min_value, td_max_value; lia).
    rewrite (format_timestamp_us s Hr), (format_timestamp_ass_us s Hr).
    eexists. eexists. split; reflexivity.
Qed.

Lemma X1_formatters_raise_witness :
  (format_timestamp 86400000000000 = Raise OverflowError /\
   format_timestamp_ass 86400000000000 = Raise OverflowError) /\
  exists srt ass : string,
    format_timestamp (- 86399999913600) = Ok srt /\
    format_timestamp_ass (- 86399999913600) = Ok ass.
Proof.
  split.
  - apply (X1_formatters_raise_outside_timedelta_range 86400000000000).
    right. reflexivity.
  - apply (X1_formatters_raise_outside_timedelta_range (- 86399999913600)).
    split; vm_compute; discriminate.
Defined.

(** X2.  For an input for which [timedelta] holds a count of microseconds
    (the fractional part scaled in double precision, the sum rounded half to
    even) of a whole second or more before zero, [format_timestamp] prints a
    negative hour field without padding, while minutes, seconds and
    milliseconds count upwards from it.  When the count is a whole number of
    seconds the printed fields add up to it; otherwise they add up to one
    second more than its whole milliseconds, because [int()] truncates the
    seconds towards zero while the microsecond field of the [timedelta] is
    counted from the second below. *)
Theorem X2_negative_timestamp_fields :
  forall s : Q,
  let us := Spec.microsecond_count s in
  - 86399999913600000000 <= us -> us <= - 1000000 ->
  exists h m sec ms : Z,
    h < 0 /\ 0 <= m < 60 /\ 0 <= sec < 60 /\ 0 <= ms < 1000 /\
    format_timestamp s =
      Ok ("-" ++ Py.str (- h) ++ ":" ++ Spec.digits2 m ++ ":"
          ++ Spec.digits2 sec ++ "," ++ Spec.digits3 ms) /\
    ((h * 60 + m) * 60 + sec) * 1000 + ms
      = us / 1000 + (if us mod 1000000 =? 0 then 0 else 1000).
Proof.
  intros s us Hmin Hneg.
  assert (Hr : Spec.in_td_range us)
    by (unfold Spec.in_td_range; rewrite td_min_value, td_max_value; lia).
  rewrite (format_timestamp_us s Hr). fold us. cbv zeta.
  set (T := Z.quot us 1000000).
  assert (HT : T = us / 1000000 + (if us mod 1000000 =? 0 then 0 else 1)).
  { subst T. destruct (Z.eqb_spec (us mod 1000000) 0) as [Hz | Hnz];
      Z.to_euclidean_division_equations; lia. }
  assert (HTneg : T <= -1).
  { rewrite HT. destruct (us mod 1000000 =? 0) eqn:E.
    - Z.to_euclidean_division_equations. lia.
    - apply Z.eqb_neq in E. Z.to_euclidean_division_equations. lia. }
  exists (T / 3600), (T mod 3600 / 60), (T mod 60), (us mod 1000000 / 1000).
  destruct (sub_second_fields us) as (Hq & _ & Hms & _).
  assert (Hh : T / 3600 < 0) by (Z.to_euclidean_division_equations; lia).
  split; [exact Hh |].
  split; [Z.to_euclidean_division_equations; lia |].
  split; [Z.to_euclidean_division_equations; lia |].
  split; [exact Hms |].
  split.
  - rewrite Hq.
    rewrite (format_0_2_digits2 (T mod 3600 / 60))
      by (Z.to_euclidean_division_equations; lia).
    rewrite (format_0_2_digits2 (T mod 60))
      by (Z.to_euclidean_division_equations; lia).
    rewrite (format_0_3_digits3 _ Hms).
    unfold Py.format_0 at 1.
    destruct (Z.ltb_spec (T / 3600) 0); [| lia].
    unfold Py.zero_pad.
    pose proof (str_nonempty (- (T / 3600))) as Hlen.
    replace (2 - 1 - String.length (Py.str (- (T / 3600))))%nat with 0%nat by lia.
    reflexivity.
  - rewrite HT. destruct (us mod 1000000 =? 0);
      Z.to_euclidean_division_equations; lia.
Qed.

Lemma X2_negative_timestamp_witness :
  (exists h m sec ms : Z,
     h < 0 /\ 0 <= m < 60 /\ 0 <= sec < 60 /\ 0 <= ms < 1000 /\
     format_timestamp (- 15 # 10) =
       Ok ("-" ++ Py.str (- h) ++ ":" ++ Spec.digits2 m ++ ":"
           ++ Spec.digits2 sec ++ "," ++ Spec.digits3 ms) /\
     ((h * 60 + m) * 60 + sec) * 1000 + ms = - 500) /\
  (exists h m sec ms : Z,
     h < 0 /\ 0 <= m < 60 /\ 0 <= sec < 60 /\ 0 <= ms < 1000 /\
     format_timestamp (Float.round (- 10470005 # 10000000)) =
       Ok ("-" ++ Py.str (- h) ++ ":" ++ Spec.digits2 m ++ ":"
           ++ Spec.digits2 sec ++ "," ++ Spec.digits3 ms) /\
     ((h * 60 + m) * 60 + sec) * 1000 + ms = - 47).
Proof.
  split.
  - apply (X2_negative_timestamp_fields (- 15 # 10)); vm_compute; discriminate.
  - assert (E : Spec.microsecond_count (Float.round (- 10470005 # 10000000))
                = - 1047000) by (vm_compute; reflexivity).
    pose proof (X2_negative_timestamp_fields
                  (Float.round (- 10470005 # 10000000))) as H.
    cbv zeta in H. rewrite E in H.
    apply H; vm_compute; discriminate.
Defined.

Example format_timestamp_double_precision_cases :
  format_timestamp (Float.round (9995 # 10000000)) = Ok "00:00:00,001" /\
  format_timestamp_ass (Float.round (99995 # 10000000)) = Ok "0:00:00.01" /\
  format_timestamp (Float.round (- 20005 # 10000000)) = Ok "00:00:00,998" /\
  format_timestamp (Float.round (- 10470005 # 10000000)) = Ok "-1:59:59,953".
Proof. repeat split; vm_compute; reflexivity. Qed.

Example format_timestamp_minus_one_and_a_half :
  format_timestamp (- 15 # 10) = Ok "-1:59:59,500".
Proof. reflexivity. Qed.

(** ** Width of the timestamps *)

Lemma str_length_1 (h : Z) : 0 <= h < 10 -> String.length (Py.str h) = 1%nat.
Proof.
  intros Hh. apply Nat.eqb_eq.
  apply (forallb_below (fun k => (String.length (Py.str k) =? 1)%nat) 10).
  - vm_compute. reflexivity.
  - simpl. lia.
Qed.

Lemma srt_timestamp_length (T ms : Z) :
  String.length (Spec.srt_timestamp T ms)
    = (String.length (Spec.hours_field (T / 3600)) + 10)%nat.
Proof. unfold Spec.srt_timestamp. now rewrite string_length_app. Qed.

Lemma ass_timestamp_length (T cs : Z) :
  String.length (Spec.ass_timestamp T cs)
    = (String.length (Py.str (T / 3600)) + 9)%nat.
Proof. unfold Spec.ass_timestamp. now rewrite string_length_app. Qed.

(** X5.  For a non-negative input within the range of [timedelta] the SRT
    timestamp has at least 12 characters, and exactly 12 just when the
    rounded input is below 100 hours; the ASS timestamp has at least 10
    characters, and exactly 10 just when it is below 10 hours. *)
Theorem X5_timestamp_width :
  forall (s : Q) (srt ass : string),
  (0 <= s)%Q ->
  let us := Spec.microsecond_count s in
  format_timestamp s = Ok srt -> format_timestamp_ass s = Ok ass ->
  (12 <= String.length srt)%nat /\
  (String.length srt = 12%nat <-> us < 360000000000) /\
  (10 <= String.length ass)%nat /\
  (String.length ass = 10%nat <-> us < 36000000000).
Proof.
  intros s srt ass Hs us Hsrt Hass.
  pose proof (microsecond_count_nonneg s Hs) as H0. fold us in H0.
  assert (Hmax : us <= Spec.td_max).
  { destruct (Z.le_gt_cases us Spec.td_max) as [H | H]; [exact H |].
    assert (Hr : ~ Spec.in_td_range us) by (unfold Spec.in_td_range; lia).
    destruct (format_timestamp_Raise s Hr) as [E _].
    rewrite E in Hsrt. discriminate Hsrt. }
  rewrite (format_timestamp_nonneg s H0 Hmax) in Hsrt.
  rewrite (format_timestamp_ass_nonneg s H0 Hmax) in Hass.
  fold us in Hsrt, Hass.
  injection Hsrt as <-. injection Hass as <-.
  rewrite srt_timestamp_length, ass_timestamp_length.
  set (h := us / 1000000 / 3600).
  assert (Hh : 0 <= h) by (subst h; Z.to_euclidean_division_equations; lia).
  assert (Hh100 : h < 100 <-> us < 360000000000)
    by (subst h; Z.to_euclidean_division_equations; lia).
  assert (Hh10 : h < 10 <-> us < 36000000000)
    by (subst h; Z.to_euclidean_division_equations; lia).
  pose proof (hours_field_length h Hh) as Hsrt.
  pose proof (str_nonempty h) as Hne.
  assert (Hass : String.length (Py.str h) = 1%nat /\ h < 10 \/
                 (2 <= String.length (Py.str h))%nat /\ 10 <= h).
  { destruct (Z.lt_ge_cases h 10) as [Hlt | Hge].
    - left. split; [apply str_length_1; lia | exact Hlt].
    - right. split; [apply str_length_ge_2; exact Hge | exact Hge]. }
  repeat split; lia.
Qed.

Lemma X5_timestamp_width_witness :
  (String.length "99:59:59,999" = 12%nat <-> 359999999000 < 360000000000) /\
  (String.length "10:00:00.00" = 10%nat <-> 36000000000 < 36000000000).
Proof.
  split.
  - apply (X5_timestamp_width (359999999 # 1000) "99:59:59,999" "99:59:59.99");
      [unfold Qle; simpl; lia | reflexivity | reflexivity].
  - apply (X5_timestamp_width 36000 "10:00:00,000" "10:00:00.00");
      [unfold Qle; simpl; lia | reflexivity | reflexivity].
Defined.

(** * Further properties of the colour converter *)

Lemma string_length_6 (t : string) :
  String.length t = 6%nat ->
  exists r1 r2 g1 g2 b1 b2 : ascii, t = Spec.six r1 r2 g1 g2 b1 b2.
Proof.
  intros H.
  destruct t as [| r1 [| r2 [| g1 [| g2 [| b1 [| b2 [| x t]]]]]]];
    try discriminate H.
  now exists r1, r2, g1, g2, b1, b2.
Qed.

Ltac each_ascii a :=
  destruct a as [[] [] [] [] [] [] [] []]; reflexivity.

Lemma upper_char_idem (a : ascii) :
  Py.upper_char (Py.upper_char a) = Py.upper_char a.
Proof. each_ascii a. Qed.

Lemma upper_char_hash (a : ascii) :
  Ascii.eqb (Py.upper_char a) "#" = Ascii.eqb a "#".
Proof. each_ascii a. Qed.

Lemma upper_char_LF (a : ascii) :
  Ascii.eqb (Py.upper_char a) Py.LF_char = Ascii.eqb a Py.LF_char.
Proof. each_ascii a. Qed.

Lemma upper_length (s : string) : String.length (Py.upper s) = String.length s.
Proof. induction s as [| a s IH]; simpl; [reflexivity | now rewrite IH]. Qed.

Lemma upper_idem (s : string) : Py.upper (Py.upper s) = Py.upper s.
Proof.
  induction s as [| a s IH]; simpl; [reflexivity |].
  now rewrite upper_char_idem, IH.
Qed.

Lemma lstrip_upper (s : string) :
  Py.lstrip "#" (Py.upper s) = Py.upper (Py.lstrip "#" s).
Proof.
  induction s as [| a s IH]; simpl; [reflexivity |].
  rewrite upper_char_hash.
  destruct (Ascii.eqb a "#"); [exact IH | reflexivity].
Qed.

Lemma count_LF_upper (s : string) :
  Spec.count Py.LF_char (Py.upper s) = Spec.count Py.LF_char s.
Proof.
  induction s as [| a s IH]; simpl; [reflexivity |].
  now rewrite upper_char_LF, IH.
Qed.

Lemma count_LF_lstrip (s : string) :
  Spec.count Py.LF_char (Py.lstrip "#" s) = Spec.count Py.LF_char s.
Proof.
  induction s as [| a s IH]; [reflexivity |].
  cbn [Py.lstrip].
  destruct (Ascii.eqb_spec a "#") as [-> | _]; [| reflexivity].
  rewrite IH. reflexivity.
Qed.

(** The converter as a case distinction on the stripped input. *)
Lemma hex_to_ass_color_cases (s : string) :
  (String.length (Py.lstrip "#" s) <> 6%nat /\ hex_to_ass_color s = "&H00FFFFFF") \/
  (exists r1 r2 g1 g2 b1 b2 : ascii,
     Py.lstrip "#" s = Spec.six r1 r2 g1 g2 b1 b2 /\
     hex_to_ass_color s = Spec.bgr_token r1 r2 g1 g2 b1 b2).
Proof.
  destruct (Nat.eq_dec (String.length (Py.lstrip "#" s)) 6) as [H6 | Hn6].
  - right. destruct (string_length_6 _ H6) as (r1 & r2 & g1 & g2 & b1 & b2 & Ht).
    exists r1, r2, g1, g2, b1, b2.
    split; [exact Ht | now apply hex_to_ass_color_six].
  - left. split; [exact Hn6 | now apply hex_to_ass_color_fallback].
Qed.

Lemma count_LF_bgr_token (r1 r2 g1 g2 b1 b2 : ascii) :
  Spec.count Py.LF_char (Spec.bgr_token r1 r2 g1 g2 b1 b2)
    = Spec.count Py.LF_char (Spec.six r1 r2 g1 g2 b1 b2).
Proof.
  unfold Spec.bgr_token, Spec.six. simpl. rewrite !upper_char_LF.
  destruct (Ascii.eqb r1 Py.LF_char), (Ascii.eqb r2 Py.LF_char),
    (Ascii.eqb g1 Py.LF_char), (Ascii.eqb g2 Py.LF_char),
    (Ascii.eqb b1 Py.LF_char), (Ascii.eqb b2 Py.LF_char); reflexivity.
Qed.

(** X6.  Whatever ASCII string it is given, [hex_to_ass_color] returns a
    token of exactly 10 characters that begins with [&H00], is left
    unchanged by upper-casing, and holds a newline only if the input holds
    one. *)
Theorem X6_color_token_shape :
  forall s : string,
  is_ascii s = true ->
  String.length (hex_to_ass_color s) = 10%nat /\
  Spec.starts_with "&H00" (hex_to_ass_color s) = true /\
  Py.upper (hex_to_ass_color s) = hex_to_ass_color s /\
  (Spec.count Py.LF_char (hex_to_ass_color s) <= Spec.count Py.LF_char s)%nat.
Proof.
  intros s _.
  destruct (hex_to_ass_color_cases s)
    as [[_ ->] | (r1 & r2 & g1 & g2 & b1 & b2 & Ht & ->)].
  - repeat split. simpl. lia.
  - split; [reflexivity |]. split; [reflexivity |]. split.
    + unfold Spec.bgr_token, Spec.six. simpl.
      now rewrite !upper_char_idem.
    + rewrite count_LF_bgr_token, <- Ht, count_LF_lstrip. lia.
Qed.

Lemma X6_color_token_witness :
  String.length (hex_to_ass_color "#c0ffee") = 10%nat /\
  Spec.starts_with "&H00" (hex_to_ass_color "not a colour") = true.
Proof.
  split.
  - apply (X6_color_token_shape "#c0ffee"). reflexivity.
  - apply (X6_color_token_shape "not a colour"). reflexivity.
Defined.

(** X7.  The converter does not distinguish the case of an ASCII input:
    the upper-cased input gives the same token. *)
Theorem X7_color_ignores_case :
  forall s : string,
  is_ascii s = true ->
  hex_to_ass_color (Py.upper s) = hex_to_ass_color s.
Proof.
  intros s _.
  destruct (hex_to_ass_color_cases s)
    as [[Hn ->] | (r1 & r2 & g1 & g2 & b1 & b2 & Ht & ->)].
  - apply hex_to_ass_color_fallback.
    now rewrite lstrip_upper, upper_length.
  - rewrite (hex_to_ass_color_six (Py.upper s)
               (Py.upper_char r1) (Py.upper_char r2) (Py.upper_char g1)
               (Py.upper_char g2) (Py.upper_char b1) (Py.upper_char b2)).
    + unfold Spec.bgr_token. now rewrite !upper_char_idem.
    + rewrite lstrip_upper, Ht. reflexivity.
Qed.

Lemma X7_color_ignores_case_witness :
  hex_to_ass_color "#C0FFEE" = hex_to_ass_color "#c0ffee".
Proof.
  apply (X7_color_ignores_case "#c0ffee"). reflexivity.
Defined.

(** X8.  Swapping red and blue is its own inverse: when the ASCII input,
    stripped, is six characters whose blue pair does not begin with [#], the
    converter applied to the six colour characters of its own result gives
    back the input colour, in upper case, behind [&H00]. *)
Theorem X8_color_swap_involution :
  forall (s : string) (r1 r2 g1 g2 b1 b2 : ascii),
  is_ascii s = true ->
  Py.lstrip "#" s = Spec.six r1 r2 g1 g2 b1 b2 ->
  b1 <> "#"%char ->
  hex_to_ass_color (Py.slice 4 10 (hex_to_ass_color s))
    = "&H00" ++ Py.upper (Spec.six r1 r2 g1 g2 b1 b2).
Proof.
  intros s r1 r2 g1 g2 b1 b2 _ Ht Hb.
  rewrite (hex_to_ass_color_six s _ _ _ _ _ _ Ht).
  unfold Spec.bgr_token.
  change (Py.slice 4 10 ("&H00" ++ ?x)) with x.
  rewrite (hex_to_ass_color_six _ (Py.upper_char b1) (Py.upper_char b2)
             (Py.upper_char g1) (Py.upper_char g2)
             (Py.upper_char r1) (Py.upper_char r2)).
  - unfold Spec.bgr_token. now rewrite !upper_char_idem.
  - apply lstrip_no_leading. intros E.
    apply Hb. apply Ascii.eqb_eq. rewrite <- upper_char_hash.
    apply Ascii.eqb_eq. exact E.
Qed.

Lemma X8_color_swap_witness :
  hex_to_ass_color "#1a2b3c" = "&H003C2B1A" /\
  hex_to_ass_color (Py.slice 4 10 (hex_to_ass_color "#1a2b3c")) = "&H001A2B3C".
Proof.
  split; [reflexivity |].
  apply (X8_color_swap_involution
           "#1a2b3c" "1"%char "a"%char "2"%char "b"%char "3"%char "c"%char).
  - reflexivity.
  - reflexivity.
  - discriminate.
Defined.

(** * Further properties of the document builders *)

Lemma mapM_app {A B : Type} (f : A -> result B) (l1 l2 : list A) :
  mapM f (l1 ++ l2) =
    (bs1 <- mapM f l1 ;; bs2 <- mapM f l2 ;; Ok (bs1 ++ bs2)%list).
Proof.
  induction l1 as [| a l1 IH]; simpl.
  - destruct (mapM f l2); reflexivity.
  - destruct (f a) as [b | e]; [| reflexivity]. simpl. rewrite IH.
    destruct (mapM f l1) as [bs1 | e]; [| reflexivity]. simpl.
    destruct (mapM f l2); reflexivity.
Qed.

Lemma mapM_map {A B C : Type} (g : A -> B) (f : B -> result C) (l : list A) :
  mapM (fun a => f (g a)) l = mapM f (map g l).
Proof.
  induction l as [| a l IH]; simpl; [reflexivity | now rewrite IH].
Qed.

Lemma mapM_Ok_iff {A B : Type} (f : A -> result B) (l : list A) :
  (exists bs, mapM f l = Ok bs) <-> Forall (fun a => exists b, f a = Ok b) l.
Proof.
  induction l as [| a l IH]; simpl.
  - split; [constructor | intros _; now exists []].
  - split.
    + intros (bs & H).
      destruct (f a) as [b | e] eqn:Hb; [| discriminate H].
      destruct (mapM f l) as [bs' | e]; [| discriminate H].
      constructor; [now exists b | apply IH; now exists bs'].
    + intros H. inversion H as [| ? ? (b & Hb) Hl]; subst.
      apply IH in Hl. destruct Hl as (bs' & Hbs').
      rewrite Hb, Hbs'. now exists (b :: bs').
Qed.

Lemma in_td_range_dec (us : Z) : {Spec.in_td_range us} + {~ Spec.in_td_range us}.
Proof.
  unfold Spec.in_td_range.
  destruct (Z_le_dec Spec.td_min us), (Z_le_dec us Spec.td_max);
    (left; lia) || (right; lia).
Qed.

Lemma format_timestamp_Ok_iff (s : Q) :
  (exists t, format_timestamp s = Ok t) <-> Spec.in_td_range (Spec.microsecond_count s).
Proof.
  split.
  - intros (t & H).
    destruct (in_td_range_dec (Spec.microsecond_count s)) as [Hr | Hn];
      [exact Hr |].
    destruct (format_timestamp_Raise s Hn) as [E _].
    rewrite E in H. discriminate H.
  - intros Hr. rewrite (format_timestamp_us s Hr). eexists. reflexivity.
Qed.

Lemma format_timestamp_ass_Ok_iff (s : Q) :
  (exists t, format_timestamp_ass s = Ok t)
    <-> Spec.in_td_range (Spec.microsecond_count s).
Proof.
  split.
  - intros (t & H).
    destruct (in_td_range_dec (Spec.microsecond_count s)) as [Hr | Hn];
      [exact Hr |].
    destruct (format_timestamp_Raise s Hn) as [_ E].
    rewrite E in H. discriminate H.
  - intros Hr. rewrite (format_timestamp_ass_us s Hr). eexists. reflexivity.
Qed.

Lemma srt_block_Ok_iff (n : Z) (row : Row) :
  (exists b, Spec.srt_block n row = Ok b) <-> row_in_range row.
Proof.
  unfold Spec.srt_block, row_in_range.
  rewrite <- !format_timestamp_Ok_iff. split.
  - intros (b & H).
    destruct (format_timestamp (start row)) as [s | e]; [| discriminate H].
    destruct (format_timestamp (end_ row)) as [s' | e]; [| discriminate H].
    split; eexists; reflexivity.
  - intros [(s & ->) (s' & ->)]. eexists. reflexivity.
Qed.

Lemma dialogue_body_Ok_iff (row : Row) :
  (exists b, Spec.dialogue_body row = Ok b) <-> row_in_range row.
Proof.
  unfold Spec.dialogue_body, row_in_range.
  rewrite <- !format_timestamp_ass_Ok_iff. split.
  - intros (b & H).
    destruct (format_timestamp_ass (start row)) as [s | e]; [| discriminate H].
    destruct (format_timestamp_ass (end_ row)) as [s' | e]; [| discriminate H].
    split; eexists; reflexivity.
  - intros [(s & ->) (s' & ->)]. eexists. reflexivity.
Qed.

Lemma Forall_equiv {A : Type} (P Q : A -> Prop) (l : list A) :
  (forall a, P a <-> Q a) -> (Forall P l <-> Forall Q l).
Proof.
  intros H. split; apply Forall_impl; intros a; apply H.
Qed.

Lemma create_srt_content_Ok_iff (df : DataFrame) :
  (exists out, create_srt_content df = Ok out)
    <-> Forall (fun p => row_in_range (snd p)) df.
Proof.
  rewrite create_srt_content_blocks.
  rewrite <- (Forall_equiv _ _ df (fun p => srt_block_Ok_iff (fst p + 1) (snd p))).
  rewrite <- (mapM_Ok_iff (fun p => Spec.srt_block (fst p + 1) (snd p)) df).
  split.
  - intros (out & H). destruct (mapM _ df) as [bs | e]; [| discriminate H].
    now exists bs.
  - intros (bs & ->). eexists. reflexivity.
Qed.

Lemma create_ass_content_Ok_iff (df : DataFrame) (st : Style) :
  (exists out, create_ass_content df st = Ok out)
    <-> Forall (fun p => row_in_range (snd p)) df.
Proof.
  rewrite create_ass_content_document. unfold Spec.ass_document.
  rewrite <- (Forall_equiv _ _ df (fun p => dialogue_body_Ok_iff (snd p))).
  rewrite <- (mapM_Ok_iff (fun p => Spec.dialogue_body (snd p)) df).
  split.
  - intros (out & H). destruct (mapM _ df) as [bs | e]; [| discriminate H].
    now exists bs.
  - intros (bs & ->). eexists. reflexivity.
Qed.

(** X9.  The SRT document of two frames put one after the other is the
    document of the first followed by the document of the second, and fails
    where either fails: a block does not depend on the rows around it. *)
Theorem X9_srt_of_concatenated_frames :
  forall df1 df2 : DataFrame,
  create_srt_content (df1 ++ df2)%list =
    (out1 <- create_srt_content df1 ;;
     out2 <- create_srt_content df2 ;;
     Ok (out1 ++ out2)).
Proof.
  intros df1 df2. rewrite !create_srt_content_blocks, mapM_app.
  destruct (mapM _ df1) as [bs1 | e]; [| reflexivity].
  destruct (mapM _ df2) as [bs2 | e]; [| reflexivity].
  simpl. now rewrite cat_app.
Qed.

(** X10.  The ASS document does not depend on the index labels of the
    frame: two frames with the same rows in the same order give the same
    result, whatever their labels. *)
Theorem X10_ass_ignores_index_labels :
  forall (df1 df2 : DataFrame) (st : Style),
  map snd df1 = map snd df2 ->
  create_ass_content df1 st = create_ass_content df2 st.
Proof.
  intros df1 df2 st H.
  rewrite !create_ass_content_document. unfold Spec.ass_document.
  now rewrite !(mapM_map snd Spec.dialogue_body), H.
Qed.

Lemma X10_ass_ignores_index_labels_witness :
  create_ass_content [(0, mk_row 0 1 "a"); (2, mk_row 1 2 "b")] default_style
    = create_ass_content [(7, mk_row 0 1 "a"); (7, mk_row 1 2 "b")] default_style.
Proof.
  apply X10_ass_ignores_index_labels. reflexivity.
Defined.

Lemma mapM_Raise_inv {A B : Type} (f : A -> result B) (l : list A) (e : exn) :
  mapM f l = Raise e -> exists a, In a l /\ f a = Raise e.
Proof.
  induction l as [| a l IH]; simpl; [discriminate |].
  destruct (f a) as [b | e'] eqn:Hb; simpl.
  - destruct (mapM f l) as [bs | e'']; simpl; [discriminate |].
    intros H. injection H as ->.
    destruct (IH eq_refl) as (a' & Hin & Ha'). exists a'. auto.
  - intros H. injection H as ->. exists a. auto.
Qed.

Lemma format_timestamp_Raise_inv (s : Q) (e : exn) :
  format_timestamp s = Raise e -> e = OverflowError.
Proof.
  intros H.
  destruct (in_td_range_dec (Spec.microsecond_count s)) as [Hr | Hn].
  - rewrite (format_timestamp_us s Hr) in H. discriminate H.
  - destruct (format_timestamp_Raise s Hn) as [E _].
    rewrite E in H. now injection H.
Qed.

Lemma format_timestamp_ass_Raise_inv (s : Q) (e : exn) :
  format_timestamp_ass s = Raise e -> e = OverflowError.
Proof.
  intros H.
  destruct (in_td_range_dec (Spec.microsecond_count s)) as [Hr | Hn].
  - rewrite (format_timestamp_ass_us s Hr) in H. discriminate H.
  - destruct (format_timestamp_Raise s Hn) as [_ E].
    rewrite E in H. now injection H.
Qed.

Lemma srt_block_Raise_inv (n : Z) (row : Row) (e : exn) :
  Spec.srt_block n row = Raise e -> e = OverflowError.
Proof.
  unfold Spec.srt_block. intros H.
  destruct (format_timestamp (start row)) as [s | e1] eqn:E1; simpl in H.
  - destruct (format_timestamp (end_ row)) as [s' | e2] eqn:E2; simpl in H;
      [discriminate H |].
    injection H as <-. exact (format_timestamp_Raise_inv _ _ E2).
  - injection H as <-. exact (format_timestamp_Raise_inv _ _ E1).
Qed.

Lemma dialogue_body_Raise_inv (row : Row) (e : exn) :
  Spec.dialogue_body row = Raise e -> e = OverflowError.
Proof.
  unfold Spec.dialogue_body. intros H.
  destruct (format_timestamp_ass (start row)) as [s | e1] eqn:E1; simpl in H.
  - destruct (format_timestamp_ass (end_ row)) as [s' | e2] eqn:E2; simpl in H;
      [discriminate H |].
    injection H as <-. exact (format_timestamp_ass_Raise_inv _ _ E2).
  - injection H as <-. exact (format_timestamp_ass_Raise_inv _ _ E1).
Qed.

Lemma create_srt_content_Raise_inv (df : DataFrame) (e : exn) :
  create_srt_content df = Raise e -> e = OverflowError.
Proof.
  rewrite create_srt_content_blocks. intros H.
  destruct (mapM (fun p => Spec.srt_block (fst p + 1) (snd p)) df)
    as [bs | e'] eqn:E; simpl in H; [discriminate H |].
  injection H as <-.
  destruct (mapM_Raise_inv _ _ _ E) as (p & _ & Hp).
  exact (srt_block_Raise_inv _ _ _ Hp).
Qed.

Lemma create_ass_content_Raise_inv (df : DataFrame) (st : Style) (e : exn) :
  create_ass_content df st = Raise e -> e = OverflowError.
Proof.
  rewrite create_ass_content_document. unfold Spec.ass_document. intros H.
  destruct (mapM (fun p => Spec.dialogue_body (snd p)) df)
    as [bs | e'] eqn:E; simpl in H; [discriminate H |].
  injection H as <-.
  destruct (mapM_Raise_inv _ _ _ E) as (p & _ & Hp).
  exact (dialogue_body_Raise_inv _ _ Hp).
Qed.

(** X11.  For a frame whose [start] and [end] cells are finite floats and
    whose [text] cells are strings, both builders return a document exactly
    when every start and end is within the range of [timedelta]; on the
    other such frames both raise [OverflowError], whatever the style. *)
Theorem X11_builders_fail_together :
  forall (df : DataFrame) (st : Style),
  (Forall (fun p => row_in_range (snd p)) df ->
   exists srt ass : string,
     create_srt_content df = Ok srt /\ create_ass_content df st = Ok ass) /\
  (~ Forall (fun p => row_in_range (snd p)) df ->
   create_srt_content df = Raise OverflowError /\
   create_ass_content df st = Raise OverflowError).
Proof.
  intros df st. split.
  - intros H.
    destruct (proj2 (create_srt_content_Ok_iff df) H) as (srt & Hs).
    destruct (proj2 (create_ass_content_Ok_iff df st) H) as (ass & Ha).
    now exists srt, ass.
  - intros H. split.
    + destruct (create_srt_content df) as [out | e] eqn:E.
      * exfalso. apply H, create_srt_content_Ok_iff. now exists out.
      * now rewrite (create_srt_content_Raise_inv df e E).
    + destruct (create_ass_content df st) as [out | e] eqn:E.
      * exfalso. apply H. apply (create_ass_content_Ok_iff df st). now exists out.
      * now rewrite (create_ass_content_Raise_inv df st e E).
Qed.

Lemma X11_builders_fail_together_witness :
  (exists srt ass : string,
     create_srt_content [(0, mk_row 0 1 "a")] = Ok srt /\
     create_ass_content [(0, mk_row 0 1 "a")] default_style = Ok ass) /\
  (create_srt_content [(0, mk_row 0 1 "a"); (1, mk_row 1 86400000000000 "b")]
     = Raise OverflowError /\
   create_ass_content [(0, mk_row 0 1 "a"); (1, mk_row 1 86400000000000 "b")]
     default_style = Raise OverflowError).
Proof.
  split.
  - apply (X11_builders_fail_together [(0, mk_row 0 1 "a")] default_style).
    repeat constructor; vm_compute; discriminate.
  - apply (X11_builders_fail_together
             [(0, mk_row 0 1 "a"); (1, mk_row 1 86400000000000 "b")]
             default_style).
    intros H. inversion H as [| ? ? _ H1]; subst.
    inversion H1 as [| ? ? [_ [_ Hmax]] _]; subst.
    vm_compute in Hmax. apply Hmax. reflexivity.
Defined.

(** ** Newlines of the SRT document *)

Lemma format_timestamp_no_LF (s : Q) (t : string) :
  format_timestamp s = Ok t -> Spec.count Py.LF_char t = 0%nat.
Proof.
  unfold format_timestamp.
  destruct (Datetime.of_seconds s) as [td | e]; simpl; [| discriminate].
  intros H. injection H as <-.
  repeat (rewrite ?count_app, ?count_LF_format_0; simpl).
  reflexivity.
Qed.

Lemma srt_block_newlines (n : Z) (row : Row) (b : string) :
  Spec.srt_block n row = Ok b ->
  Spec.count Py.LF_char b = (4 + Spec.count Py.LF_char (text row))%nat.
Proof.
  unfold Spec.srt_block. intros H.
  destruct (format_timestamp (start row)) as [s | x] eqn:Hs; [| discriminate H].
  destruct (format_timestamp (end_ row)) as [e | x] eqn:He; [| discriminate H].
  simpl in H. injection H as <-.
  pose proof (format_timestamp_no_LF _ _ Hs) as Hs0.
  pose proof (format_timestamp_no_LF _ _ He) as He0.
  unfold Spec.unlines, Spec.cat, Py.LF. simpl.
  repeat (rewrite ?count_app, ?count_LF_str, ?Hs0, ?He0; simpl).
  lia.
Qed.

Lemma srt_blocks_newlines (df : DataFrame) (bs : list string) :
  mapM (fun p => Spec.srt_block (fst p + 1) (snd p)) df = Ok bs ->
  Spec.count Py.LF_char (Spec.cat bs)
    = (4 * List.length df + text_newlines df)%nat.
Proof.
  revert bs. induction df as [| [idx row] df IH]; simpl; intros bs H.
  - injection H as <-. reflexivity.
  - destruct (Spec.srt_block (idx + 1) row) as [b | e] eqn:Hb; [| discriminate H].
    destruct (mapM _ df) as [bs' | e]; [| discriminate H].
    simpl in H. injection H as <-.
    change (Spec.cat (b :: bs')) with (b ++ Spec.cat bs').
    rewrite count_app, (srt_block_newlines _ _ _ Hb), (IH bs' eq_refl). lia.
Qed.

(** X12.  The SRT document holds four newlines for every row and, besides
    them, exactly the newlines of the texts: a text is copied as it is, so
    each newline inside a text adds a line to its block. *)
Theorem X12_srt_newlines :
  forall (df : DataFrame) (out : string),
  create_srt_content df = Ok out ->
  Spec.count Py.LF_char out = (4 * List.length df + text_newlines df)%nat.
Proof.
  intros df out H. rewrite create_srt_content_blocks in H.
  destruct (mapM _ df) as [bs | e] eqn:Hbs; [| discriminate H].
  simpl in H. injection H as <-.
  now apply srt_blocks_newlines.
Qed.

Lemma X12_srt_newlines_witness :
  exists out : string,
    create_srt_content
      [(0, mk_row 0 1 "a"); (1, mk_row 1 2 ("b" ++ Py.LF ++ Py.LF ++ "c"))]
      = Ok out /\
    Spec.count Py.LF_char out = 10%nat.
Proof.
  eexists. split; [reflexivity |].
  apply (X12_srt_newlines
           [(0, mk_row 0 1 "a"); (1, mk_row 1 2 ("b" ++ Py.LF ++ Py.LF ++ "c"))]).
  reflexivity.
Defined.

(** * The script around the builders *)

(** ** The preview *)

Lemma starts_with_spec (p s : string) :
  Spec.starts_with p s = true <-> exists b, s = p ++ b.
Proof.
  revert s. induction p as [| x p IH]; intros s.
  - split; [intros _; now exists s | reflexivity].
  - destruct s as [| y s]; cbn [Spec.starts_with].
    + split; [discriminate | intros (b & H); discriminate H].
    + rewrite andb_true_iff, IH. split.
      * intros [E (b & ->)]. apply Ascii.eqb_eq in E. subst y. now exists b.
      * intros (b & H). simpl in H. injection H as -> ->.
        split; [apply Ascii.eqb_refl | now exists b].
Qed.

(** [sub in s] holds exactly when [s] can be cut around an occurrence of
    [sub]. *)
Lemma str_in_spec (sub s : string) :
  App.str_in sub s = true <-> exists a b, s = a ++ sub ++ b.
Proof.
  induction s as [| y s IH]; cbn [App.str_in];
    rewrite orb_true_iff, starts_with_spec.
  - split.
    + intros [(b & H) | H]; [| discriminate H]. now exists "", b.
    + intros (a & b & H). left.
      destruct a as [| x a]; [| discriminate H]. now exists b.
  - rewrite IH. split.
    + intros [(b & H) | (a & b & ->)].
      * now exists "", b.
      * now exists (String y a), b.
    + intros (a & b & H). destruct a as [| x a].
      * left. now exists b.
      * right. simpl in H. injection H as -> ->. now exists a, b.
Qed.

(** X14.  An upload is shown with the video player exactly when its name
    holds [mp4] or [mov] somewhere, in lower case, whether or not that is
    its extension; every other upload is shown with the audio player. *)
Theorem X14_video_player_choice :
  forall name : string,
  App.shows_video name = true <->
  exists a b : string, name = a ++ "mp4" ++ b \/ name = a ++ "mov" ++ b.
Proof.
  intros name. unfold App.shows_video. cbn [existsb].
  rewrite !orb_true_iff, !str_in_spec. split.
  - intros [(a & b & H) | [(a & b & H) | H]]; [| | discriminate H].
    + exists a, b. now left.
    + exists a, b. now right.
  - intros (a & b & [H | H]).
    + left. now exists a, b.
    + right. left. now exists a, b.
Qed.

Lemma X14_video_player_choice_witness :
  App.shows_video "removed noise.mp3" = true /\
  exists a b : string, "clip.mp4" = a ++ "mp4" ++ b \/ "clip.mp4" = a ++ "mov" ++ b.
Proof.
  split.
  - apply (X14_video_player_choice "removed noise.mp3").
    exists "re", "ed noise.mp3". right. reflexivity.
  - apply (X14_video_player_choice "clip.mp4"). reflexivity.
Defined.

Example upper_case_extension_is_audio : App.shows_video "CLIP.MP4" = false.
Proof. reflexivity. Qed.

(** ** The sidebar and the ASS download *)

(** The lines of an ASS document whose style strings hold no newline. *)
Lemma ass_output_lines (df : DataFrame) (st : Style) (out : string) :
  create_ass_content df st = Ok out ->
  Spec.count Py.LF_char (font_name st) = 0%nat ->
  Spec.count Py.LF_char (primary_color st) = 0%nat ->
  Spec.count Py.LF_char (outline_color st) = 0%nat ->
  Spec.lines_with_prefix "Style:" (Spec.split Py.LF_char out)
    = [Spec.style_line st] /\
  List.length (Spec.lines_with_prefix "Dialogue:" (Spec.split Py.LF_char out))
    = List.length df.
Proof.
  intros Hout Hf Hp Ho.
  rewrite create_ass_content_document in Hout.
  unfold Spec.ass_document in Hout.
  destruct (mapM _ df) as [bodies | e] eqn:Hb; [| discriminate Hout].
  rewrite bind_Ok in Hout.
  assert (Hlines : out = Spec.unlines
                           (Spec.script_info_lines ++ [Spec.style_line st]
                              ++ Spec.events_lines ++ bodies))
    by congruence.
  clear Hout. subst out.
  destruct (bodies_are_dialogue_lines df bodies Hb) as (Hlf & Hdl & Hlen).
  destruct fixed_lines_prefixes as (Hs1 & Hs2 & Hd1 & Hd2).
  destruct (style_line_prefixes st) as (Hs3 & Hd3).
  pose proof (no_style_among_bodies bodies Hdl) as Hs4.
  pose proof (only_bodies_are_dialogue bodies Hdl) as Hd4.
  rewrite split_unlines.
  - unfold Spec.lines_with_prefix in *. rewrite !filter_app.
    rewrite Hs1, Hs2, Hs3, Hs4, Hd1, Hd2, Hd3, Hd4.
    split; [reflexivity |].
    cbn [filter Spec.starts_with app]. now rewrite app_nil_r.
  - repeat (apply Forall_app; split); try exact Hlf.
    + unfold Spec.script_info_lines. repeat constructor.
    + constructor; [apply style_line_no_LF; assumption | constructor].
    + unfold Spec.events_lines. repeat constructor.
Qed.

Lemma font_map_lookup (label : string) :
  In label (App.dict_keys App.font_map) ->
  exists name : string,
    App.dict_get App.font_map label = Some name /\
    In name ["MS Gothic"; "MS Mincho"; "Meiryo"; "Yu Gothic"; "Arial"] /\
    Spec.count Py.LF_char name = 0%nat.
Proof.
  intros H. simpl in H.
  destruct H as [<- | [<- | [<- | [<- | [<- | []]]]]];
    eexists; (split; [reflexivity |]); (split; [simpl; tauto | reflexivity]).
Qed.

Lemma alignment_map_lookup (label : string) :
  In label (App.dict_keys App.alignment_map) ->
  exists a : Z,
    App.dict_get App.alignment_map label = Some a /\ In a [2; 5; 8].
Proof.
  intros H. simpl in H.
  destruct H as [<- | [<- | [<- | []]]];
    eexists; (split; [reflexivity | simpl; tauto]).
Qed.

(** X13.  For every choice among the fonts and positions the sidebar
    offers, and whatever the sliders and ASCII colour strings without
    newline the colour pickers return, the lookups in the two tables do not
    fail; the style handed to [create_ass_content] has alignment 2, 5 or 8,
    shadow depth 0 and colours made by [hex_to_ass_color]; and the ASS
    download, when every timestamp can be formatted, has exactly one Style
    line and exactly one Dialogue line per row of the edited frame. *)
Theorem X13_ass_download_well_formed :
  forall (edited_df : DataFrame) (ui : App.Sidebar),
  In (App.font_label ui) (App.dict_keys App.font_map) ->
  In (App.position_label ui) (App.dict_keys App.alignment_map) ->
  is_ascii (App.font_color_hex ui) = true ->
  is_ascii (App.outline_color_hex ui) = true ->
  Spec.count Py.LF_char (App.font_color_hex ui) = 0%nat ->
  Spec.count Py.LF_char (App.outline_color_hex ui) = 0%nat ->
  exists st : Style,
    App.sidebar_style ui = Some st /\
    App.ass_download edited_df ui = Some (create_ass_content edited_df st) /\
    In (alignment st) [2; 5; 8] /\
    shadow_depth st = 0 /\
    primary_color st = hex_to_ass_color (App.font_color_hex ui) /\
    outline_color st = hex_to_ass_color (App.outline_color_hex ui) /\
    (forall out : string,
       create_ass_content edited_df st = Ok out ->
       Spec.lines_with_prefix "Style:" (Spec.split Py.LF_char out)
         = [Spec.style_line st] /\
       List.length (Spec.lines_with_prefix "Dialogue:" (Spec.split Py.LF_char out))
         = List.length edited_df).
Proof.
  intros df ui Hfont Hpos _ _ Hc1 Hc2.
  destruct (font_map_lookup _ Hfont) as (name & Hname & _ & Hname0).
  destruct (alignment_map_lookup _ Hpos) as (a & Ha & Hain).
  unfold App.ass_download, App.sidebar_style. rewrite Hname, Ha.
  eexists. split; [reflexivity |]. split; [reflexivity |].
  cbn [alignment shadow_depth primary_color outline_color default_style].
  split; [exact Hain |]. split; [reflexivity |].
  split; [reflexivity |]. split; [reflexivity |].
  intros out Hout.
  apply (ass_output_lines _ _ _ Hout); cbn [font_name primary_color outline_color].
  - exact Hname0.
  - destruct (hex_to_ass_color_cases (App.font_color_hex ui))
      as [[_ ->] | (r1 & r2 & g1 & g2 & b1 & b2 & Ht & ->)]; [reflexivity |].
    now rewrite count_LF_bgr_token, <- Ht, count_LF_lstrip.
  - destruct (hex_to_ass_color_cases (App.outline_color_hex ui))
      as [[_ ->] | (r1 & r2 & g1 & g2 & b1 & b2 & Ht & ->)]; [reflexivity |].
    now rewrite count_LF_bgr_token, <- Ht, count_LF_lstrip.
Qed.

Lemma X13_ass_download_witness :
  let ui := App.mk_sidebar "Meiryo (メイリオ)" 40 "#FFFFFF" 2 "#000000" "上中央" 20 in
  exists st : Style,
    App.sidebar_style ui = Some st /\
    In (alignment st) [2; 5; 8] /\
    shadow_depth st = 0 /\
    outline_color st = "&H00000000".
Proof.
  intros ui.
  destruct (X13_ass_download_well_formed [(0, mk_row 0 1 "a")] ui)
    as (st & Hst & _ & Hal & Hsh & _ & Hout & _);
    try reflexivity.
  - simpl. tauto.
  - simpl. tauto.
  - exists st. repeat split; assumption.
Defined.

(** ** Numbering of the SRT blocks *)

(** X15.  The blocks of the SRT document follow the rows of the frame in
    order and each is numbered with the index label of its row plus one; on
    a frame that carries the default index 0, 1, 2, ... this is the
    numbering 1, 2, 3, ... by position. *)
Theorem X15_srt_blocks_numbered_by_label :
  (forall df : DataFrame,
     create_srt_content df =
       (bs <- mapM (fun p => Spec.srt_block (fst p + 1) (snd p)) df ;;
        Ok (Spec.cat bs))) /\
  (forall rows : list Row,
     create_srt_content (frame_of_rows rows)
       = Spec.srt_document (frame_of_rows rows)).
Proof.
  split; [exact create_srt_content_blocks | exact create_srt_content_range_index].
Qed.
